(** * NPT: Network Performance Tester (npt.py)

    A shallow embedding of [NetworkTester] and [main] from [npt.py], and the
    properties of the probe orchestration, the sample statistics and the MTU
    descent that the specification states about them.

    Modelling conventions.
    - Python floats are idealised as exact rationals ([Q]).  [statistics.mean]
      already sums its data exactly as fractions; [round(x, 2)] is decimal
      rounding with ties to even.  Every number stored in the report went
      through [round], whose model returns a reduced fraction, so report
      entries are compared with Leibniz equality.
    - The network is a [World] of oracles indexed by the number of external
      calls made so far; the tester carries that counter.
    - Python statements are computations in the monad [M]: a state
      transformer that either returns a value or raises, the state changes
      made before a [raise] being kept, as in Python.
    - Logging and [time.sleep] have no effect on the results and are left
      out. *)

From Stdlib Require Import ZArith QArith Qabs Lia Lqa.
From stdpp Require Import gmap strings list fin_maps.

Set Warnings "-clear-no-such-hyp".
Local Open Scope Z_scope.

(** ** Numbers *)

Module Num.

(** Nearest integer, ties to the even neighbour. *)
Definition round_half_even (q : Q) : Z :=
  let n := Qnum q in
  let d := Z.pos (Qden q) in
  let f := n / d in
  let r := n mod d in
  match 2 * r ?= d with
  | Lt => f
  | Gt => f + 1
  | Eq => if Z.even f then f else f + 1
  end.

Definition pow10 (ndigits : nat) : positive := Nat.iter ndigits (Pos.mul 10) 1%positive.

(** [round(number, ndigits)] *)
Definition round (number : Q) (ndigits : nat) : Q :=
  Qred (round_half_even (number * inject_Z (Z.pos (pow10 ndigits))) # pow10 ndigits).

Definition Qltb (x y : Q) : bool := negb (Qle_bool y x).

Definition sum (data : list Q) : Q := fold_left Qplus data 0%Q.

End Num.

(** ** Exceptions and the statement monad *)

Inductive exn :=
  | Exception (msg : string)
  | TimeoutException (msg : string)
  | ZeroDivisionError
  | StatisticsError
  | ValueError
  | KeyError (key : string)
  | CollaboratorError          (* raised inside ping3, dnspython, speedtest or scapy *)
  | SystemExit (code : Z).     (* argparse rejecting the command line *)

(** [except Exception] catches every class above but [SystemExit]. *)
Definition is_Exception (e : exn) : bool :=
  match e with SystemExit _ => false | _ => true end.

Inductive outcome (A : Type) :=
  | Ok (a : A)
  | Raise (e : exn).
Arguments Ok {A} a.
Arguments Raise {A} e.

(** Pure fallible expressions *)
Definition obind {A B} (o : outcome A) (k : A → outcome B) : outcome B :=
  match o with Ok a => k a | Raise e => Raise e end.

(** ** Data model *)

(** The value stored under a metric: one of four fixed shapes. *)
Inductive metric_result :=
  | Stats (average_ms min_ms max_ms : Q)
  | PacketLoss (loss_rate_percent : Q) (packets_sent packets_received : Z)
  | Bandwidth (download_mbps upload_mbps : option Q)
  | Mtu (size_bytes : Z).

(** A report entry is a [metric_result] or Python's [None]. *)
Abbreviation entry := (option metric_result).

(** *** The network, as seen by the tester *)

(** What one call of [ping3.ping] gives back.  The methods only ask whether
    the result [is not None] and then multiply it by 1000: a number is a
    reply of that many seconds, and the [False] that ping3 returns for some
    failures is taken as a number too, being [0] in arithmetic, so that it is
    [PingReply 0] here. *)
Inductive ping_outcome :=
  | PingReply (rtt : Q)        (* a number of seconds, or [False] as 0 *)
  | PingNone                   (* [None]: no answer before the timeout *)
  | PingError.                 (* the call raised *)

Inductive resolve_outcome :=
  | Resolved (elapsed : Q)     (* seconds between the two [time.time()] readings *)
  | ResolveError.

Inductive transfer :=
  | Transferred (bits_per_second : Q)
  | TransferError.

Record Speedtest := {
  st_config : bool;            (* [speedtest.Speedtest(secure=True)] returned *)
  st_best_server : bool;       (* [get_best_server()] returned *)
  st_download : transfer;
  st_upload : transfer
}.

Inductive sr1_outcome :=
  | Sr1Reply
  | Sr1None
  | Sr1Error.

(** One run of the search, as the network decides it: what [sr1] gives back
    in the iteration whose candidate is [mtu_size], and how many seconds that
    iteration takes.  It is indexed by the candidate, not by what is sent
    (see [probe_length]); nothing is assumed of the times, and statements
    that need [sr1]'s one-second wait for a lost probe say so. *)
Record Path := {
  sr1 : Z → sr1_outcome;
  sr1_cost : Z → Q
}.

Record World := {
  ping : nat → ping_outcome;
  resolver_ok : nat → bool;
  resolve : nat → string → resolve_outcome;
  speedtest : nat → Speedtest;
  path : nat → Path
}.

(** *** The tester *)

Record NetworkTester := {
  target_host : string;
  sample_size : Z;
  results : gmap string entry;
  calls : nat;                 (* external calls made so far *)
  abandoned : list entry       (* verdicts of MTU threads still running *)
}.

Definition init (target_host : string) (sample_size : Z) : NetworkTester :=
  {| target_host := target_host; sample_size := sample_size;
     results := ∅; calls := 0%nat; abandoned := [] |}.

Definition M (A : Type) : Type := NetworkTester → outcome A * NetworkTester.

Definition ret {A} (a : A) : M A := λ self, (Ok a, self).
Definition raise {A} (e : exn) : M A := λ self, (Raise e, self).
Definition bind {A B} (m : M A) (k : A → M B) : M B :=
  λ self, match m self with
          | (Ok a, self') => k a self'
          | (Raise e, self') => (Raise e, self')
          end.
Definition lift {A} (o : outcome A) : M A := λ self, (o, self).

Notation "'let!' x ':=' m 'in' k" := (bind m (λ x, k))
  (at level 10, x name, m at level 100, k at level 200, only parsing).
Notation "'run!' m 'in' k" := (bind m (λ _, k))
  (at level 10, m at level 100, k at level 200, only parsing).

(** [try: body except Exception as e: handler e] *)
Definition try_except {A} (body : M A) (handler : exn → M A) : M A :=
  λ self, match body self with
          | (Ok a, self') => (Ok a, self')
          | (Raise e, self') =>
              if is_Exception e then handler e self' else (Raise e, self')
          end.

(** [self.results[key] = value] *)
Definition set_result (key : string) (value : entry) : M unit :=
  λ self, (Ok tt,
           {| target_host := target_host self; sample_size := sample_size self;
              results := <[key := value]> (results self);
              calls := calls self; abandoned := abandoned self |}).

Definition tick (self : NetworkTester) : NetworkTester :=
  {| target_host := target_host self; sample_size := sample_size self;
     results := results self;
     calls := S (calls self); abandoned := abandoned self |}.

Definition abandon (late : entry) : M unit :=
  λ self, (Ok tt,
           {| target_host := target_host self; sample_size := sample_size self;
              results := results self;
              calls := calls self; abandoned := abandoned self ++ [late] |}).

(** ** Statistics *)

(** [statistics.mean(data)] *)
Definition mean (data : list Q) : outcome Q :=
  match data with
  | [] => Raise StatisticsError
  | _ => Ok (Num.sum data / inject_Z (Z.of_nat (length data)))%Q
  end.

(** [min(data)]: the first smallest element. *)
Definition min (data : list Q) : outcome Q :=
  match data with
  | [] => Raise ValueError
  | x :: rest => Ok (fold_left (λ m y, if Num.Qltb y m then y else m) rest x)
  end.

(** [max(data)]: the first largest element. *)
Definition max (data : list Q) : outcome Q :=
  match data with
  | [] => Raise ValueError
  | x :: rest => Ok (fold_left (λ m y, if Num.Qltb m y then y else m) rest x)
  end.

(** The dictionary literal shared by latency, jitter and DNS:
    [{'average_ms': round(avg, 2), 'min_ms': round(min(data), 2),
      'max_ms': round(max(data), 2)}]. *)
Definition stats_record (avg : Q) (data : list Q) : outcome metric_result :=
  obind (min data) (λ lo,
  obind (max data) (λ hi,
  Ok (Stats (Num.round avg 2) (Num.round lo 2) (Num.round hi 2)))).

(** ** The measurements *)

Section Measurements.

Variable w : World.

Definition get_sample_size : M Z := λ self, (Ok (sample_size self), self).

(** [ping(self.target_host)] *)
Definition call_ping : M (option Q) :=
  λ self, match ping w (calls self) with
          | PingReply rtt => (Ok (Some rtt), tick self)
          | PingNone => (Ok None, tick self)
          | PingError => (Raise CollaboratorError, tick self)
          end.

(** The sampling loop of [measure_latency] and [measure_jitter]:
    [for _ in range(n): result = ping(..)
       if result is not None: latencies.append(result * 1000)]. *)
Fixpoint sample_latencies (n : nat) (latencies : list Q) : M (list Q) :=
  match n with
  | O => ret latencies
  | S n' =>
      let! result := call_ping in
      sample_latencies n'
        (match result with
         | Some rtt => latencies ++ [(rtt * 1000)%Q]
         | None => latencies
         end)
  end.

(** The [if latencies: ... else: raise] block of [measure_latency]. *)
Definition latency_summary (latencies : list Q) : outcome metric_result :=
  match latencies with
  | [] => Raise (Exception "No valid latency measurements")
  | _ => obind (mean latencies) (λ avg_latency, stats_record avg_latency latencies)
  end.

Definition measure_latency : M unit :=
  try_except
    (let! n := get_sample_size in
     let! latencies := sample_latencies (Z.to_nat n) [] in
     let! record := lift (latency_summary latencies) in
     set_result "latency" (Some record))
    (λ e, set_result "latency" None).

(** The counting loop of [measure_packet_loss]. *)
Fixpoint count_replies (n : nat) (received : Z) : M Z :=
  match n with
  | O => ret received
  | S n' =>
      let! result := call_ping in
      count_replies n'
        (match result with
         | Some _ => received + 1
         | None => received
         end)
  end.

(** [a / b] on integers: true division. *)
Definition truediv (a b : Z) : outcome Q :=
  if b =? 0 then Raise ZeroDivisionError else Ok (inject_Z a / inject_Z b)%Q.

Definition measure_packet_loss : M unit :=
  try_except
    (let! sent := get_sample_size in
     let! received := count_replies (Z.to_nat sent) 0 in
     let! ratio := lift (truediv (sent - received) sent) in
     let loss_rate := (ratio * 100)%Q in
     set_result "packet_loss"
       (Some (PacketLoss (Num.round loss_rate 2) sent received)))
    (λ e, set_result "packet_loss" None).

(** [speedtest.Speedtest(secure=True)] *)
Definition new_speedtest : M Speedtest :=
  λ self, let st := speedtest w (calls self) in
          if st_config st then (Ok st, tick self)
          else (Raise CollaboratorError, tick self).

Definition get_best_server (st : Speedtest) : M unit :=
  lift (if st_best_server st then Ok tt else Raise CollaboratorError).

Definition run_transfer (t : transfer) : M Q :=
  lift (match t with
        | Transferred bits => Ok bits
        | TransferError => Raise CollaboratorError
        end).

Definition measure_bandwidth : M unit :=
  try_except
    (let! st := new_speedtest in
     run! try_except (get_best_server st)
            (λ e, raise (Exception "Failed to find speedtest server")) in
     let! download_speed :=
       try_except
         (let! bits := run_transfer (st_download st) in
          ret (Some (Num.round (bits / 1000000) 2)))
         (λ e, ret None) in
     let! upload_speed :=
       try_except
         (let! bits := run_transfer (st_upload st) in
          ret (Some (Num.round (bits / 1000000) 2)))
         (λ e, ret None) in
     set_result "bandwidth" (Some (Bandwidth download_speed upload_speed)))
    (λ e, set_result "bandwidth" (Some (Bandwidth None None))).

(** [for i in range(1, len(latencies)):
       differences.append(abs(latencies[i] - latencies[i-1]))];
    every index read lies inside the list. *)
Definition differences (latencies : list Q) : list Q :=
  map (λ i, Qabs (nth i latencies 0 - nth (i - 1) latencies 0)%Q)
      (seq 1 (length latencies - 1)).

(** The [if len(latencies) >= 2: ... else: raise] block of [measure_jitter]. *)
Definition jitter_summary (latencies : list Q) : outcome metric_result :=
  if (2 <=? length latencies)%nat then
    let differences := differences latencies in
    obind (mean differences) (λ jitter, stats_record jitter differences)
  else Raise (Exception "Insufficient samples for jitter calculation").

Definition measure_jitter : M unit :=
  try_except
    (let! n := get_sample_size in
     let! latencies := sample_latencies (Z.to_nat n) [] in
     let! record := lift (jitter_summary latencies) in
     set_result "jitter" (Some record))
    (λ e, set_result "jitter" None).

(** *** MTU discovery

    Time inside the MTU thread is counted in seconds from its [start_time];
    the iteration that probes size [s] lasts [sr1_cost p s].  The caller's
    [join(timeout=10)] is measured from the same origin. *)

Definition timeout_seconds : Q := 10.

(** The [while mtu_size > 0] loop.  [elapsed] is what
    [time.time() - start_time] reads at the top of the iteration; the second
    component of the result is the time at which the function is left.
    [None] only when [fuel] runs out. *)
Fixpoint mtu_descent (p : Path) (fuel : nat) (mtu_size : Z) (elapsed : Q)
  : option (outcome Z * Q) :=
  if mtu_size >? 0 then
    match fuel with
    | O => None
    | S fuel' =>
        if Num.Qltb timeout_seconds elapsed then
          Some (Raise (TimeoutException "MTU measurement timed out"), elapsed)
        else
          let elapsed' := (elapsed + sr1_cost p mtu_size)%Q in
          match sr1 p mtu_size with
          | Sr1Reply => Some (Ok mtu_size, elapsed')
          | Sr1Error => Some (Raise CollaboratorError, elapsed')
          | Sr1None => mtu_descent p fuel' (mtu_size - 10) elapsed'
          end
    end
  else Some (Ok mtu_size, elapsed).

(** 150 candidates lie between 1500 and 10; see [mtu_descent_terminates]. *)
Definition measure_mtu_with_timeout (p : Path) : outcome Z * Q :=
  default (Ok 0, 0%Q) (mtu_descent p 150 1500 0).

(** The thread body: what it stores under ['mtu'] (nothing, if an exception
    escapes its [except Exception]) and when it ends. *)
Definition _measure_mtu_thread (p : Path) : option entry * Q :=
  match measure_mtu_with_timeout p with
  | (Ok mtu_size, finished) => (Some (Some (Mtu mtu_size)), finished)
  | (Raise e, finished) =>
      (if is_Exception e then Some None else None, finished)
  end.

Definition start_mtu_thread : M (option entry * Q) :=
  λ self, (Ok (_measure_mtu_thread (path w (calls self))), tick self).

Definition thread_writes (written : option entry) : M unit :=
  match written with
  | Some value => set_result "mtu" value
  | None => ret tt
  end.

(** [mtu_thread.join(timeout=10)] returns at the thread's end or after ten
    seconds, whichever comes first; the thread [is_alive()] afterwards when
    it ends later than that.  A thread left alive keeps running: its write
    is queued in [abandoned] and lands when [late_write] is taken. *)
Definition measure_mtu : M unit :=
  try_except
    (let! mtu_thread := start_mtu_thread in
     let '(written, finished) := mtu_thread in
     if Num.Qltb 10 finished then
       run! set_result "mtu" None in
       match written with
       | Some value => abandon value
       | None => ret tt
       end
     else
       run! thread_writes written in
       (λ self, match results self !! "mtu" with
                | None => set_result "mtu" None self
                | Some _ => ret tt self
                end))
    (λ e, set_result "mtu" None).

(** *** DNS *)

Definition domains : list string := ["google.com"; "microsoft.com"; "amazon.com"].

(** [dns.resolver.Resolver()] *)
Definition new_resolver : M unit :=
  λ self, if resolver_ok w (calls self) then (Ok tt, tick self)
          else (Raise CollaboratorError, tick self).

(** [start_time = time.time(); resolver.resolve(domain);
     time.time() - start_time] *)
Definition timed_resolve (domain : string) : M Q :=
  λ self, match resolve w (calls self) domain with
          | Resolved elapsed => (Ok elapsed, tick self)
          | ResolveError => (Raise CollaboratorError, tick self)
          end.

Fixpoint resolve_each (domains : list string) (resolution_times : list Q)
  : M (list Q) :=
  match domains with
  | [] => ret resolution_times
  | domain :: rest =>
      let! elapsed := timed_resolve domain in
      resolve_each rest (resolution_times ++ [(elapsed * 1000)%Q])
  end.

Definition measure_dns_resolution : M unit :=
  try_except
    (run! new_resolver in
     let! resolution_times := resolve_each domains [] in
     let! avg_resolution_time := lift (mean resolution_times) in
     let! record := lift (stats_record avg_resolution_time resolution_times) in
     set_result "dns_resolution" (Some record))
    (λ e, set_result "dns_resolution" None).

(** ** The driver *)

Definition choices : list string :=
  ["latency"; "packet_loss"; "bandwidth"; "jitter"; "mtu"; "dns"].

Definition metric_methods : list (string * M unit) :=
  [("latency", measure_latency);
   ("packet_loss", measure_packet_loss);
   ("bandwidth", measure_bandwidth);
   ("jitter", measure_jitter);
   ("mtu", measure_mtu);
   ("dns", measure_dns_resolution)].

(** [metric_methods[metric]] *)
Fixpoint getitem (methods : list (string * M unit)) (metric : string)
  : outcome (M unit) :=
  match methods with
  | [] => Raise (KeyError metric)
  | (name, method) :: rest =>
      if String.eqb name metric then Ok method else getitem rest metric
  end.

(** [for metric in args.metrics: metric_methods[metric]()] *)
Fixpoint run_requested (metrics : list string) : M unit :=
  match metrics with
  | [] => ret tt
  | metric :: rest =>
      let! method := lift (getitem metric_methods metric) in
      run! method in
      run_requested rest
  end.

(** [for method in metric_methods.values(): method()] *)
Fixpoint run_each (methods : list (string * M unit)) : M unit :=
  match methods with
  | [] => ret tt
  | (_, method) :: rest => run! method in run_each rest
  end.

End Measurements.

(** The three options once [argparse] has read them from the command line:
    [--samples] already an integer, [--metrics] [None] when absent.  What
    [argparse] does before that point (its exits for [-h], an unknown option
    or a [--samples] that is no integer) is not modelled; of its checks only
    those on [--metrics] are, in [parse_args]. *)
Record Args := {
  target : string;
  samples : Z;
  metrics : option (list string)
}.

Definition parse_args (argv : Args) : outcome Args :=
  match metrics argv with
  | None => Ok argv
  | Some [] => Raise (SystemExit 2)
  | Some names =>
      if forallb (λ name, bool_decide (name ∈ choices)) names
      then Ok argv else Raise (SystemExit 2)
  end.

(** [main], up to the point where the report is printed and saved.  The
    result is the tester at the end of the loop with the writes of the MTU
    threads still running left pending in [abandoned]; such a thread may end
    while a later probe runs or after the loop, and [late_write] is its
    write.  By [late_write_lands_any_time] the report is the same wherever
    the write falls among the probes of the other five metrics. *)
Definition main (w : World) (argv : Args) : outcome NetworkTester :=
  obind (parse_args argv) (λ args,
    let tester := init (target args) (samples args) in
    let body :=
      match metrics args with
      | Some ((_ :: _) as requested) => run_requested w requested
      | _ => run_each (metric_methods w)
      end in
    match body tester with
    | (Ok _, tester') => Ok tester'
    | (Raise e, _) => Raise e
    end).

(** An abandoned MTU thread reaching its own end: it stores its verdict. *)
Definition late_write (self : NetworkTester) : NetworkTester :=
  match abandoned self with
  | [] => self
  | value :: rest =>
      {| target_host := target_host self; sample_size := sample_size self;
         results := <["mtu" := value]> (results self);
         calls := calls self; abandoned := rest |}
  end.

(** ** Worlds used in the examples *)

Definition pings_of (samples : list ping_outcome) : nat → ping_outcome :=
  λ k, nth k samples PingNone.

Definition quiet_world : World :=
  {| ping := λ _, PingNone;
     resolver_ok := λ _, true;
     resolve := λ _ _, ResolveError;
     speedtest := λ _, {| st_config := false; st_best_server := false;
                          st_download := TransferError; st_upload := TransferError |};
     path := λ _, {| sr1 := λ _, Sr1None; sr1_cost := λ _, 1%Q |} |}.

Definition with_pings (samples : list ping_outcome) : World :=
  {| ping := pings_of samples;
     resolver_ok := resolver_ok quiet_world;
     resolve := resolve quiet_world;
     speedtest := speedtest quiet_world;
     path := path quiet_world |}.

Definition with_path (p : Path) : World :=
  {| ping := ping quiet_world;
     resolver_ok := resolver_ok quiet_world;
     resolve := resolve quiet_world;
     speedtest := speedtest quiet_world;
     path := λ _, p |}.

(** A search in which the probes for the candidates above 1000 are lost,
    each after a full second. *)
Definition slow_path_1000 : Path :=
  {| sr1 := λ size, if size <=? 1000 then Sr1Reply else Sr1None;
     sr1_cost := λ _, 1%Q |}.

(** A search in which every probe is lost after [cost] seconds. *)
Definition silent_path (cost : Q) : Path :=
  {| sr1 := λ _, Sr1None; sr1_cost := λ _, cost |}.

(** Nine probes lost after 1.1 s each, then a reply to the tenth probe
    (candidate 1410) that takes 0.4 s: the search ends at 10.3 s. *)
Definition late_reply_path : Path :=
  {| sr1 := λ size, if size <=? 1410 then Sr1Reply else Sr1None;
     sr1_cost := λ size, if size <=? 1410 then (4 # 10)%Q else (11 # 10)%Q |}.

(** The packet of lines 221-222, in bytes on the wire.
    [IP(dst=..)/TCP(dport=80)] is two headers, 40 bytes.  The assignment
    [packet.load = "X" * (mtu_size - 40)] names no field of the IP or the TCP
    layer, and the packet has no payload layer that could take it: scapy then
    keeps the string as a plain attribute of the Python object, and what
    [sr1] sends is the 40 bytes of headers, whatever the candidate. *)
Definition probe_length (mtu_size : Z) : Z := 40.

(** A link that answers a packet according to its length in bytes, after
    [reply_time] seconds; for a packet it drops, [sr1(packet, timeout=1)]
    gives up after one second. *)
Record Link := {
  passes : Z → bool;
  reply_time : Q
}.

(** The search as it runs over a link. *)
Definition path_over (link : Link) : Path :=
  {| sr1 := λ mtu_size,
       if passes link (probe_length mtu_size) then Sr1Reply else Sr1None;
     sr1_cost := λ mtu_size,
       if passes link (probe_length mtu_size) then reply_time link else 1%Q |}.

(** A link whose path MTU is 1000 bytes: packets of at most 1000 bytes are
    answered within 50 ms, longer ones are dropped. *)
Definition link_1000 : Link :=
  {| passes := λ bytes, bytes <=? 1000; reply_time := (1 # 20)%Q |}.

Definition with_speedtest (st : Speedtest) : World :=
  {| ping := ping quiet_world;
     resolver_ok := resolver_ok quiet_world;
     resolve := resolve quiet_world;
     speedtest := λ _, st;
     path := path quiet_world |}.

(** A network whose resolver works and whose [k]-th external call, when it
    is a DNS query, takes [k] milliseconds. *)
Definition resolving_world : World :=
  {| ping := ping quiet_world;
     resolver_ok := λ _, true;
     resolve := λ k _, Resolved (inject_Z (Z.of_nat k) / 1000);
     speedtest := speedtest quiet_world;
     path := path quiet_world |}.

(** The metric name on the command line and the key its method stores. *)
Definition report_key (metric : string) : string :=
  if String.eqb metric "dns" then "dns_resolution" else metric.

(** ** Vocabulary of the statements *)

(** [z] is a nearest integer to [n/d], and the even one on a tie. *)
Definition nearest_even (n d z : Z) : Prop :=
  2 * Z.abs (n - z * d) < d ∨ (2 * Z.abs (n - z * d) = d ∧ Z.even z = true).

(** The answers the next [n] calls of [ping] will get. *)
Definition upcoming_pings (w : World) (self : NetworkTester) (n : nat)
  : list ping_outcome :=
  map (λ k, ping w (calls self + k)%nat) (seq 0 n).

(** The successful samples of a run of pings, in milliseconds and in order;
    [None] when one of the calls raises. *)
Fixpoint latencies_of (pings : list ping_outcome) : option (list Q) :=
  match pings with
  | [] => Some []
  | PingReply rtt :: rest => cons (rtt * 1000)%Q <$> latencies_of rest
  | PingNone :: rest => latencies_of rest
  | PingError :: _ => None
  end.

Definition is_reply (p : ping_outcome) : bool :=
  match p with PingReply _ => true | _ => false end.

Definition is_error (p : ping_outcome) : bool :=
  match p with PingError => true | _ => false end.

(** What [except Exception] leaves of a summary. *)
Definition entry_of (summary : outcome metric_result) : entry :=
  match summary with Ok record => Some record | Raise _ => None end.

(** The [k]-th candidate size of the descent. *)
Definition candidate (k : nat) : Z := 1500 - 10 * Z.of_nat k.

(** What [time.time() - start_time] reads after [k] more iterations. *)
Fixpoint clock_after (p : Path) (mtu_size : Z) (elapsed : Q) (k : nat) : Q :=
  match k with
  | O => elapsed
  | S k' => clock_after p (mtu_size - 10) (elapsed + sr1_cost p mtu_size)%Q k'
  end.

(** The measured speed of one transfer, as [measure_bandwidth] stores it. *)
Definition speed_of (t : transfer) : option Q :=
  match t with
  | Transferred bits => Some (Num.round (bits / 1000000) 2)
  | TransferError => None
  end.

(** * Properties *)

(** ** How statements touch [results] *)

(** The part of the tester that only [self.results[key] = value] changes. *)
Definition unchanged (self self' : NetworkTester) : Prop :=
  results self' = results self ∧ sample_size self' = sample_size self.

Definition stored (key : string) (value : entry) (self self' : NetworkTester) : Prop :=
  results self' = <[key := value]> (results self) ∧
  sample_size self' = sample_size self.

(** [quiet m]: [m] leaves [results] and [sample_size] alone and raises only
    what [except Exception] catches. *)
Definition quiet {A} (m : M A) : Prop :=
  ∀ self, unchanged self (m self).2 ∧
          ∀ e, (m self).1 = Raise e → is_Exception e = true.

(** [stores key m]: [m] returns normally, having assigned [results[key]]
    and nothing else. *)
Definition stores (key : string) (m : M unit) : Prop :=
  ∀ self, ∃ value self', m self = (Ok tt, self') ∧ stored key value self self'.

(** [attempts key m]: [m] either behaves as [stores key m] or raises a
    catchable exception before touching [results]. *)
Definition attempts (key : string) (m : M unit) : Prop :=
  ∀ self,
    (∃ value self', m self = (Ok tt, self') ∧ stored key value self self')
    ∨ (∃ e self',
        m self = (Raise e, self') ∧ is_Exception e = true ∧ unchanged self self').

(** The keys of the three methods that sample with [ping]. *)
Definition sampling_keys : list string := ["latency"; "packet_loss"; "jitter"].

(** A tester asked for no samples whose sampling entries, if any, are [None]. *)
Definition zero_run (self : NetworkTester) : Prop :=
  sample_size self = 0 ∧
  ∀ key value, key ∈ sampling_keys → results self !! key = Some value → value = None.

(** The number of [ping] calls a sampling loop makes on these answers: all
    of them, or up to and including the first that raises. *)
Fixpoint consumed (pings : list ping_outcome) : nat :=
  match pings with
  | [] => 0
  | PingError :: _ => 1
  | _ :: rest => S (consumed rest)
  end.

(** The answers to the queries for [ds], the first being external call [c]. *)
Fixpoint resolutions_from (w : World) (c : nat) (ds : list string)
  : list resolve_outcome :=
  match ds with
  | [] => []
  | d :: rest => resolve w c d :: resolutions_from w (S c) rest
  end.

(** Resolution times in milliseconds; [None] when a query raises. *)
Fixpoint times_of (answers : list resolve_outcome) : option (list Q) :=
  match answers with
  | [] => Some []
  | Resolved elapsed :: rest => cons (elapsed * 1000)%Q <$> times_of rest
  | ResolveError :: _ => None
  end.

(** [threadless m]: [m] starts no thread and leaves the running ones alone. *)
Definition threadless {A} (m : M A) : Prop :=
  ∀ self, abandoned (m self).2 = abandoned self.

(** A tester with a thread still running has an ["mtu"] entry. *)
Definition threads_have_entry (self : NetworkTester) : Prop :=
  abandoned self = [] ∨ "mtu" ∈ dom (results self).

Lemma unchanged_refl self : unchanged self self.
Proof. by split. Qed.

Lemma unchanged_trans self1 self2 self3 :
  unchanged self1 self2 → unchanged self2 self3 → unchanged self1 self3.
Proof. intros [? ?] [? ?]. split; congruence. Qed.

Lemma stored_after self1 self2 self3 key value :
  unchanged self1 self2 → stored key value self2 self3 → stored key value self1 self3.
Proof. intros [? ?] [? ?]. split; congruence. Qed.

Lemma quiet_ret {A} (a : A) : quiet (ret a).
Proof. intros self; split; [apply unchanged_refl | intros e H; discriminate H]. Qed.

Lemma quiet_raise {A} (e : exn) : is_Exception e = true → quiet (@raise A e).
Proof.
  intros He self; split; [apply unchanged_refl | intros e' H; cbn in H; congruence].
Qed.

Lemma quiet_lift {A} (o : outcome A) :
  (∀ e, o = Raise e → is_Exception e = true) → quiet (lift o).
Proof. intros Ho self; split; [apply unchanged_refl | exact Ho]. Qed.

Lemma quiet_bind {A B} (m : M A) (k : A → M B) :
  quiet m → (∀ a, quiet (k a)) → quiet (bind m k).
Proof.
  intros Hm Hk self. unfold bind.
  destruct (Hm self) as [Hsame Hexn].
  destruct (m self) as [[a | e] self1]; cbn in *.
  - destruct (Hk a self1) as [Hsame' Hexn'].
    split; [by eapply unchanged_trans | exact Hexn'].
  - split; [exact Hsame | intros e' [= <-]; by apply Hexn].
Qed.

Lemma quiet_try_except {A} (body : M A) (handler : exn → M A) :
  quiet body → (∀ e, quiet (handler e)) → quiet (try_except body handler).
Proof.
  intros Hb Hh self. unfold try_except.
  destruct (Hb self) as [Hsame Hexn].
  destruct (body self) as [[a | e] self1]; cbn in *; [done |].
  rewrite (Hexn e eq_refl).
  destruct (Hh e self1) as [Hsame' Hexn'].
  split; [by eapply unchanged_trans | exact Hexn'].
Qed.

Lemma attempts_set_result key value : attempts key (set_result key value).
Proof. intros self. left. eexists _, _. split; [reflexivity | by split]. Qed.

Lemma attempts_bind {A} key (m : M A) (k : A → M unit) :
  quiet m → (∀ a, attempts key (k a)) → attempts key (bind m k).
Proof.
  intros Hm Hk self. unfold bind.
  destruct (Hm self) as [Hsame Hexn].
  destruct (m self) as [[a | e] self1]; cbn in *.
  - destruct (Hk a self1) as [(v & s' & -> & Hst) | (e & s' & -> & He & Hun)].
    + left. exists v, s'. split; [done | by eapply stored_after].
    + right. exists e, s'. split; [done |]. split; [done | by eapply unchanged_trans].
  - right. exists e, self1. split; [done |]. split; [by apply Hexn | done].
Qed.

Lemma stores_try_except key body fallback :
  attempts key body →
  stores key (try_except body (λ _, set_result key fallback)).
Proof.
  intros Hb self. unfold try_except.
  destruct (Hb self) as [(v & s' & -> & Hst) | (e & s' & -> & He & [Hres Hsize])].
  - by exists v, s'.
  - rewrite He. eexists fallback, _. split; [reflexivity |].
    split; cbn; congruence.
Qed.

Create HintDb quiet.
#[local] Hint Resolve quiet_ret quiet_raise quiet_lift quiet_bind quiet_try_except : quiet.
#[local] Hint Extern 1 (is_Exception _ = true) => reflexivity : quiet.

(** A body made of quiet steps that ends in the assignment. *)
Ltac attempt_steps :=
  repeat (apply attempts_bind; [solve [eauto 8 with quiet] | intros ?]);
  apply attempts_set_result.

Section MethodsStore.

Variable w : World.

Lemma quiet_get_sample_size : quiet get_sample_size.
Proof. intros self; split; [apply unchanged_refl | intros e H; discriminate H]. Qed.

Lemma quiet_call_ping : quiet (call_ping w).
Proof.
  intros self. unfold call_ping.
  destruct (ping w (calls self)); cbn; (split; [by split |]); intros e [= <-]; done.
Qed.

Lemma quiet_sample_latencies n latencies : quiet (sample_latencies w n latencies).
Proof.
  revert latencies; induction n as [| n IH]; intros latencies; cbn.
  - apply quiet_ret.
  - apply quiet_bind; [apply quiet_call_ping | intros r; apply IH].
Qed.

Lemma quiet_count_replies n received : quiet (count_replies w n received).
Proof.
  revert received; induction n as [| n IH]; intros received; cbn.
  - apply quiet_ret.
  - apply quiet_bind; [apply quiet_call_ping | intros r; apply IH].
Qed.

Lemma mean_catchable data e : mean data = Raise e → is_Exception e = true.
Proof. destruct data; cbn; intros [= <-]; done. Qed.

Lemma stats_record_catchable avg data e :
  stats_record avg data = Raise e → is_Exception e = true.
Proof. destruct data; cbn; intros [= <-]; done. Qed.

Lemma latency_summary_catchable latencies e :
  latency_summary latencies = Raise e → is_Exception e = true.
Proof.
  destruct latencies as [| x l]; [intros [= <-]; done |].
  unfold latency_summary, obind. cbn. intros [= <-].
Qed.

Lemma jitter_summary_catchable latencies e :
  jitter_summary latencies = Raise e → is_Exception e = true.
Proof.
  unfold jitter_summary. destruct (2 <=? length latencies)%nat; [| intros [= <-]; done].
  unfold obind. destruct (mean _) eqn:Hm; [apply stats_record_catchable |].
  intros [= <-]. by eapply mean_catchable.
Qed.

Lemma truediv_catchable a b e : truediv a b = Raise e → is_Exception e = true.
Proof. unfold truediv. destruct (b =? 0); intros [= <-]; done. Qed.

Lemma quiet_new_speedtest : quiet (new_speedtest w).
Proof.
  intros self. unfold new_speedtest.
  destruct (st_config _); cbn; (split; [by split |]); intros e [= <-]; done.
Qed.

Lemma quiet_get_best_server st : quiet (get_best_server st).
Proof. apply quiet_lift. destruct (st_best_server st); intros e [= <-]; done. Qed.

Lemma quiet_run_transfer t : quiet (run_transfer t).
Proof. apply quiet_lift. destruct t; intros e [= <-]; done. Qed.

Lemma quiet_new_resolver : quiet (new_resolver w).
Proof.
  intros self. unfold new_resolver.
  destruct (resolver_ok _ _); cbn; (split; [by split |]); intros e [= <-]; done.
Qed.

Lemma quiet_timed_resolve domain : quiet (timed_resolve w domain).
Proof.
  intros self. unfold timed_resolve.
  destruct (resolve _ _ _); cbn; (split; [by split |]); intros e [= <-]; done.
Qed.

Lemma quiet_resolve_each ds times : quiet (resolve_each w ds times).
Proof.
  revert times; induction ds as [| d ds IH]; intros times; cbn.
  - apply quiet_ret.
  - apply quiet_bind; [apply quiet_timed_resolve | intros t; apply IH].
Qed.

#[local] Hint Resolve quiet_get_sample_size quiet_call_ping quiet_sample_latencies
  quiet_count_replies quiet_new_speedtest quiet_get_best_server quiet_run_transfer
  quiet_new_resolver quiet_timed_resolve quiet_resolve_each
  mean_catchable stats_record_catchable latency_summary_catchable
  jitter_summary_catchable truediv_catchable : quiet.

Lemma stores_measure_latency : stores "latency" (measure_latency w).
Proof. apply stores_try_except. attempt_steps. Qed.

Lemma stores_measure_jitter : stores "jitter" (measure_jitter w).
Proof. apply stores_try_except. attempt_steps. Qed.

Lemma stores_measure_packet_loss : stores "packet_loss" (measure_packet_loss w).
Proof. apply stores_try_except. attempt_steps. Qed.

Lemma stores_measure_bandwidth : stores "bandwidth" (measure_bandwidth w).
Proof. apply stores_try_except. attempt_steps. Qed.

Lemma stores_measure_dns_resolution :
  stores "dns_resolution" (measure_dns_resolution w).
Proof. apply stores_try_except. attempt_steps. Qed.

End MethodsStore.

(** ** The driver fills one key per requested metric *)

Section Driver.

Variable w : World.

Lemma stores_measure_mtu : stores "mtu" (measure_mtu w).
Proof.
  intros self. unfold measure_mtu, try_except, bind, start_mtu_thread.
  destruct (_measure_mtu_thread _) as [written finished].
  destruct (Num.Qltb 10 finished).
  - destruct written as [value |]; eexists None, _; (split; [reflexivity | by split]).
  - destruct written as [value |]; cbn.
    + rewrite lookup_insert_eq. eexists value, _. split; [reflexivity | by split].
    + destruct (results self !! "mtu") as [old |] eqn:Hold.
      * exists old, (tick self). split; [reflexivity |].
        split; cbn; [by rewrite insert_id | done].
      * eexists None, _. split; [reflexivity | by split].
Qed.

Lemma stores_ok key m self :
  stores key m →
  ∃ self', m self = (Ok tt, self') ∧
           dom (results self') = {[key]} ∪ dom (results self) ∧
           is_Some (results self' !! key).
Proof.
  intros Hm. destruct (Hm self) as (v & self' & Hrun & Hres & _).
  exists self'. rewrite Hres, dom_insert_L, lookup_insert_eq. eauto.
Qed.

Lemma elem_of_choices name :
  name ∈ choices →
  name = "latency" ∨ name = "packet_loss" ∨ name = "bandwidth" ∨
  name = "jitter" ∨ name = "mtu" ∨ name = "dns".
Proof. unfold choices. rewrite !elem_of_cons, elem_of_nil. tauto. Qed.

Lemma getitem_choices name :
  name ∈ choices →
  ∃ method, getitem (metric_methods w) name = Ok method ∧
            stores (report_key name) method.
Proof.
  intros H. apply elem_of_choices in H.
  destruct H as [-> | [-> | [-> | [-> | [-> | ->]]]]]; eexists; (split; [reflexivity |]).
  - apply stores_measure_latency.
  - apply stores_measure_packet_loss.
  - apply stores_measure_bandwidth.
  - apply stores_measure_jitter.
  - apply stores_measure_mtu.
  - apply stores_measure_dns_resolution.
Qed.

Lemma run_requested_keys names :
  Forall (λ name, name ∈ choices) names →
  ∀ self, ∃ self',
    run_requested w names self = (Ok tt, self') ∧
    dom (results self') = list_to_set (report_key <$> names) ∪ dom (results self).
Proof.
  intros Hall.
  induction Hall as [| name names Hname Hrest IH]; intros self; cbn [run_requested].
  - exists self. split; [reflexivity | set_solver].
  - destruct (getitem_choices name Hname) as (method & Hget & Hstores).
    unfold bind, lift. rewrite Hget.
    destruct (stores_ok _ _ self Hstores) as (self1 & -> & Hdom & _).
    destruct (IH self1) as (self2 & -> & Hdom2).
    exists self2. split; [reflexivity |]. rewrite Hdom2, Hdom. set_solver.
Qed.

Lemma run_each_keys :
  ∀ self, ∃ self',
    run_each (metric_methods w) self = (Ok tt, self') ∧
    dom (results self') = list_to_set (report_key <$> choices) ∪ dom (results self).
Proof.
  intros self. cbn. unfold bind.
  destruct (stores_ok _ _ self (stores_measure_latency w)) as (s1 & -> & H1 & _).
  destruct (stores_ok _ _ s1 (stores_measure_packet_loss w)) as (s2 & -> & H2 & _).
  destruct (stores_ok _ _ s2 (stores_measure_bandwidth w)) as (s3 & -> & H3 & _).
  destruct (stores_ok _ _ s3 (stores_measure_jitter w)) as (s4 & -> & H4 & _).
  destruct (stores_ok _ _ s4 stores_measure_mtu) as (s5 & -> & H5 & _).
  destruct (stores_ok _ _ s5 (stores_measure_dns_resolution w)) as (s6 & -> & H6 & _).
  exists s6. split; [reflexivity |].
  rewrite H6, H5, H4, H3, H2, H1. cbn. set_solver.
Qed.

Lemma parse_args_valid tgt n names :
  names ≠ [] →
  Forall (λ name, name ∈ choices) names →
  parse_args {| target := tgt; samples := n; metrics := Some names |}
  = Ok {| target := tgt; samples := n; metrics := Some names |}.
Proof.
  intros Hne Hall. unfold parse_args; cbn.
  destruct names as [| name names]; [done |].
  assert (forallb (λ name, bool_decide (name ∈ choices)) (name :: names) = true) as ->;
    [| done].
  apply forallb_forall. intros x Hx. apply bool_decide_eq_true.
  rewrite Forall_forall in Hall. apply Hall. by apply list_elem_of_In.
Qed.

Lemma main_requested_keys tgt n names :
  names ≠ [] →
  Forall (λ name, name ∈ choices) names →
  ∃ tester,
    main w {| target := tgt; samples := n; metrics := Some names |} = Ok tester ∧
    dom (results tester) = list_to_set (report_key <$> names).
Proof.
  intros Hne Hall. unfold main. rewrite parse_args_valid by done. cbn.
  destruct names as [| name names]; [done |].
  destruct (run_requested_keys _ Hall (init tgt n)) as (tester & -> & Hdom).
  exists tester. split; [reflexivity |]. rewrite Hdom. cbn. set_solver.
Qed.

Lemma main_default_keys tgt n :
  ∃ tester,
    main w {| target := tgt; samples := n; metrics := None |} = Ok tester ∧
    dom (results tester) = list_to_set (report_key <$> choices).
Proof.
  unfold main; cbn -[run_each metric_methods].
  destruct (run_each_keys (init tgt n)) as (tester & -> & Hdom).
  exists tester. split; [reflexivity |]. rewrite Hdom. cbn. set_solver.
Qed.

End Driver.

(** ** C1: the keys of the report *)

(** C1 (as amended).  Whatever the network does, [main] run on a valid
    selection of metrics (or on none, which selects all six) reaches its end
    with a report whose key set is the set of requested names with ["dns"]
    renamed to ["dns_resolution"]; each of those keys has one entry, a record
    or [None]. *)
Theorem report_keys_are_renamed_requests
    (w : World) (tgt : string) (n : Z) (requested : option (list string)) :
  (∀ names, requested = Some names →
            names ≠ [] ∧ Forall (λ name, name ∈ choices) names) →
  ∃ tester,
    main w {| target := tgt; samples := n; metrics := requested |} = Ok tester ∧
    dom (results tester) = list_to_set (report_key <$> default choices requested) ∧
    ∀ name, name ∈ default choices requested →
            ∃ value : entry,
              results tester !! report_key name = Some value ∧
              ∀ value', results tester !! report_key name = Some value' → value' = value.
Proof.
  intros Hvalid.
  assert (∃ tester,
    main w {| target := tgt; samples := n; metrics := requested |} = Ok tester ∧
    dom (results tester) = list_to_set (report_key <$> default choices requested))
    as (tester & Hmain & Hdom).
  { destruct requested as [names |]; cbn [default].
    - destruct (Hvalid names eq_refl) as [Hne Hall].
      by apply main_requested_keys.
    - apply main_default_keys. }
  exists tester. split; [exact Hmain |]. split; [exact Hdom |].
  intros name Hname.
  assert (report_key name ∈ dom (results tester)) as Hin.
  { rewrite Hdom. apply elem_of_list_to_set, list_elem_of_fmap. eauto. }
  apply elem_of_dom in Hin as [value Hvalue].
  exists value. split; [exact Hvalue | congruence].
Qed.

Lemma report_keys_witness :
  ∃ tester,
    main quiet_world {| target := "8.8.8.8"; samples := 2;
                        metrics := Some ["dns"; "latency"] |} = Ok tester ∧
    dom (results tester) = {["dns_resolution"; "latency"]}.
Proof.
  destruct (report_keys_are_renamed_requests quiet_world "8.8.8.8" 2
              (Some ["dns"; "latency"])) as (tester & Hmain & Hdom & _).
  - intros names [= <-]. split; [done |].
    repeat constructor; unfold choices; set_solver.
  - exists tester. split; [exact Hmain |]. rewrite Hdom. cbn. set_solver.
Defined.

(** C1 as stated fails: a run asked for ["dns"] returns a report whose only
    key is ["dns_resolution"]. *)
Lemma dns_request_is_stored_under_another_key :
  ∃ tester,
    main quiet_world {| target := "8.8.8.8"; samples := 10;
                        metrics := Some ["dns"] |} = Ok tester ∧
    results tester !! "dns" = None ∧
    results tester !! "dns_resolution" = Some None ∧
    dom (results tester) ≠ list_to_set ["dns"].
Proof.
  exists (measure_dns_resolution quiet_world (init "8.8.8.8" 10)).2.
  split; [reflexivity |]. split; [reflexivity |]. split; [reflexivity |].
  intros Heq.
  assert ("dns_resolution" ∈ dom (results
            (measure_dns_resolution quiet_world (init "8.8.8.8" 10)).2)) as Hin.
  { apply elem_of_dom. eexists. reflexivity. }
  rewrite Heq in Hin. set_solver.
Qed.

(** ** Rounding *)

Module NumFacts.

Lemma round_half_even_nearest q :
  nearest_even (Qnum q) (Z.pos (Qden q)) (Num.round_half_even q).
Proof.
  unfold Num.round_half_even, nearest_even.
  set (n := Qnum q). set (d := Z.pos (Qden q)).
  assert (0 < d) as Hd by (unfold d; lia).
  pose proof (Z.div_mod n d ltac:(lia)) as Hdm.
  pose proof (Z.mod_pos_bound n d Hd) as Hr.
  destruct (Z.compare_spec (2 * (n mod d)) d) as [Heq | Hlt | Hgt].
  - destruct (Z.even (n / d)) eqn:Hev.
    + right. split; [nia | done].
    + right. split; [nia |]. rewrite Z.even_add, Hev. done.
  - left. nia.
  - left. nia.
Qed.

Lemma nearest_even_unique n d z z' :
  0 < d → nearest_even n d z → nearest_even n d z' → z = z'.
Proof.
  intros Hd H H'.
  assert (Z.abs (z - z') ≤ 1) as Hclose.
  { destruct H as [H | [H _]], H' as [H' | [H' _]]; nia. }
  destruct (Z.eq_dec z z') as [| Hne]; [done | exfalso].
  assert (z' = z + 1 ∨ z' = z - 1) as Hz by lia.
  destruct H as [H | [H Hev]], H' as [H' | [H' Hev']]; try nia.
  destruct Hz as [-> | ->].
  - rewrite Z.even_add, Hev in Hev'. done.
  - rewrite Z.even_sub, Hev in Hev'. done.
Qed.

Lemma nearest_even_scale n d n' d' z :
  0 < d → 0 < d' → n * d' = n' * d →
  nearest_even n d z → nearest_even n' d' z.
Proof.
  intros Hd Hd' Heq. unfold nearest_even.
  assert (Z.abs (n - z * d) * d' = Z.abs (n' - z * d') * d) as Habs.
  { transitivity (Z.abs ((n - z * d) * d')).
    - rewrite Z.abs_mul, (Z.abs_eq d'); lia.
    - replace ((n - z * d) * d') with ((n' - z * d') * d) by nia.
      rewrite Z.abs_mul, (Z.abs_eq d); lia. }
  intros [H | [H Hev]]; [left | right; split; [| done]]; nia.
Qed.

Lemma round_half_even_comp x y : (x == y)%Q → Num.round_half_even x = Num.round_half_even y.
Proof.
  intros Hxy. unfold Qeq in Hxy.
  apply (nearest_even_unique (Qnum y) (Z.pos (Qden y))); [lia | |].
  - apply (nearest_even_scale (Qnum x) (Z.pos (Qden x))); [lia | lia | exact Hxy |].
    apply round_half_even_nearest.
  - apply round_half_even_nearest.
Qed.

Lemma round_half_even_inject k : Num.round_half_even (inject_Z k) = k.
Proof.
  apply (nearest_even_unique k 1); [lia | apply (round_half_even_nearest (inject_Z k)) |].
  left. lia.
Qed.

Lemma round_half_even_error q :
  (Qabs (inject_Z (Num.round_half_even q) - q) <= 1 # 2)%Q.
Proof.
  pose proof (round_half_even_nearest q) as H. unfold nearest_even in H.
  set (z := Num.round_half_even q) in *.
  apply Qabs_Qle_condition. destruct q as [n d]. cbn in H.
  unfold Qle, Qminus, Qplus, Qopp, inject_Z; cbn. split; nia.
Qed.

Lemma round_comp x y ndigits : (x == y)%Q → Num.round x ndigits = Num.round y ndigits.
Proof.
  intros Hxy. unfold Num.round. f_equal. f_equal.
  apply round_half_even_comp. by rewrite Hxy.
Qed.

Lemma round_value x ndigits :
  (Num.round x ndigits ==
   inject_Z (Num.round_half_even (x * inject_Z (Z.pos (Num.pow10 ndigits)))) / inject_Z (Z.pos (Num.pow10 ndigits)))%Q.
Proof.
  unfold Num.round. rewrite Qred_correct. rewrite Qmake_Qdiv. reflexivity.
Qed.

Lemma round_2_error x : (Qabs (Num.round x 2 - x) <= 1 # 200)%Q.
Proof.
  rewrite round_value. change (inject_Z (Z.pos (Num.pow10 2))) with 100%Q.
  pose proof (round_half_even_error (x * 100)) as H.
  apply Qabs_Qle_condition in H as [H1 H2].
  apply Qabs_Qle_condition.
  set (z := inject_Z (Num.round_half_even (x * 100))) in *.
  assert (z / 100 == z * (1 # 100))%Q as -> by (unfold Qdiv; reflexivity).
  split; lra.
Qed.

Lemma round_2_hundredths k : Num.round (k # 100) 2 = Qred (k # 100).
Proof.
  unfold Num.round. change (Num.pow10 2) with 100%positive.
  rewrite (round_half_even_comp _ (inject_Z k)).
  - by rewrite round_half_even_inject.
  - unfold Qeq, Qmult, inject_Z; cbn. lia.
Qed.

Lemma Qltb_lt (x y : Q) : Num.Qltb x y = true ↔ (x < y)%Q.
Proof.
  unfold Num.Qltb. rewrite negb_true_iff. split.
  - intros H. apply Qnot_le_lt. intros Hle. apply Qle_bool_iff in Hle. congruence.
  - intros H. destruct (Qle_bool y x) eqn:Hle; [| done].
    apply Qle_bool_iff in Hle. exfalso. by apply (Qlt_not_le x y).
Qed.

Lemma Qltb_ge (x y : Q) : Num.Qltb x y = false ↔ (y <= x)%Q.
Proof. unfold Num.Qltb. rewrite negb_false_iff. apply Qle_bool_iff. Qed.

End NumFacts.

(** ** Mean, minimum and maximum *)

Section Statistics.

Local Open Scope Q_scope.

Lemma sum_fold (data : list Q) (a : Q) :
  fold_left Qplus data a == a + fold_right Qplus 0 data.
Proof.
  revert a; induction data as [| x data IH]; intros a; cbn.
  - ring.
  - rewrite IH. ring.
Qed.

Lemma mean_spec (x : Q) (data : list Q) :
  ∃ avg, mean (x :: data) = Ok avg ∧
         avg * inject_Z (Z.of_nat (length (x :: data)))
         == fold_right Qplus 0 (x :: data).
Proof.
  eexists; split; [reflexivity |].
  unfold Num.sum. rewrite sum_fold.
  set (n := inject_Z (Z.of_nat (length (x :: data)))).
  assert (~ n == 0) as Hn.
  { unfold n, Qeq; cbn. lia. }
  field. exact Hn.
Qed.

Lemma fold_min_spec (rest : list Q) (m : Q) :
  let lo := fold_left (λ m y, if Num.Qltb y m then y else m) rest m in
  lo ∈ m :: rest ∧ ∀ y, y ∈ m :: rest → lo <= y.
Proof.
  revert m; induction rest as [| x rest IH]; intros m; cbn.
  - split; [set_solver |]. intros y Hy.
    apply list_elem_of_singleton in Hy as ->. apply Qle_refl.
  - destruct (Num.Qltb x m) eqn:Hxm.
    + apply NumFacts.Qltb_lt in Hxm.
      destruct (IH x) as [Hin Hle]. split; [set_solver |].
      intros y Hy. apply elem_of_cons in Hy as [-> | Hy]; [| apply Hle; set_solver].
      apply (Qle_trans _ x); [apply Hle; set_solver | by apply Qlt_le_weak].
    + apply NumFacts.Qltb_ge in Hxm.
      destruct (IH m) as [Hin Hle]. split; [set_solver |].
      intros y Hy. apply elem_of_cons in Hy as [-> | Hy]; [apply Hle; set_solver |].
      apply elem_of_cons in Hy as [-> | Hy]; [| apply Hle; set_solver].
      apply (Qle_trans _ m); [apply Hle; set_solver | exact Hxm].
Qed.

Lemma fold_max_spec (rest : list Q) (m : Q) :
  let hi := fold_left (λ m y, if Num.Qltb m y then y else m) rest m in
  hi ∈ m :: rest ∧ ∀ y, y ∈ m :: rest → y <= hi.
Proof.
  revert m; induction rest as [| x rest IH]; intros m; cbn.
  - split; [set_solver |]. intros y Hy.
    apply list_elem_of_singleton in Hy as ->. apply Qle_refl.
  - destruct (Num.Qltb m x) eqn:Hmx.
    + apply NumFacts.Qltb_lt in Hmx.
      destruct (IH x) as [Hin Hle]. split; [set_solver |].
      intros y Hy. apply elem_of_cons in Hy as [-> | Hy]; [| apply Hle; set_solver].
      apply (Qle_trans _ x); [by apply Qlt_le_weak | apply Hle; set_solver].
    + apply NumFacts.Qltb_ge in Hmx.
      destruct (IH m) as [Hin Hle]. split; [set_solver |].
      intros y Hy. apply elem_of_cons in Hy as [-> | Hy]; [apply Hle; set_solver |].
      apply elem_of_cons in Hy as [-> | Hy]; [| apply Hle; set_solver].
      apply (Qle_trans _ m); [exact Hmx | apply Hle; set_solver].
Qed.

Lemma min_spec (x : Q) (data : list Q) :
  ∃ lo, min (x :: data) = Ok lo ∧ lo ∈ x :: data ∧ ∀ y, y ∈ x :: data → lo <= y.
Proof. eexists; split; [reflexivity | apply fold_min_spec]. Qed.

Lemma max_spec (x : Q) (data : list Q) :
  ∃ hi, max (x :: data) = Ok hi ∧ hi ∈ x :: data ∧ ∀ y, y ∈ x :: data → y <= hi.
Proof. eexists; split; [reflexivity | apply fold_max_spec]. Qed.

(** The record built from a non-empty list holds its rounded mean, minimum
    and maximum. *)
Lemma stats_record_spec (x : Q) (data : list Q) :
  ∃ avg lo hi,
    obind (mean (x :: data)) (λ avg, stats_record avg (x :: data))
    = Ok (Stats (Num.round avg 2) (Num.round lo 2) (Num.round hi 2)) ∧
    avg * inject_Z (Z.of_nat (length (x :: data))) == fold_right Qplus 0 (x :: data) ∧
    (lo ∈ x :: data ∧ ∀ y, y ∈ x :: data → lo <= y) ∧
    (hi ∈ x :: data ∧ ∀ y, y ∈ x :: data → y <= hi).
Proof.
  destruct (mean_spec x data) as (avg & Hmean & Havg).
  destruct (min_spec x data) as (lo & Hmin & Hlo).
  destruct (max_spec x data) as (hi & Hmax & Hhi).
  exists avg, lo, hi. rewrite Hmean. unfold stats_record.
  rewrite Hmin, Hmax. cbn [obind]. done.
Qed.

Lemma stats_record_singleton (x : Q) :
  obind (mean [x]) (λ avg, stats_record avg [x])
  = Ok (Stats (Num.round x 2) (Num.round x 2) (Num.round x 2)).
Proof.
  cbn. do 2 f_equal. apply NumFacts.round_comp.
  unfold Num.sum; cbn. field.
Qed.

End Statistics.

(** ** The sampling loops *)

Section Sampling.

Variable w : World.

Lemma upcoming_pings_S self n :
  upcoming_pings w self (S n) = ping w (calls self) :: upcoming_pings w (tick self) n.
Proof.
  unfold upcoming_pings. cbn [seq map]. rewrite Nat.add_0_r. f_equal.
  rewrite <- seq_shift, map_map. apply map_ext. intros k. cbn. f_equal. lia.
Qed.

Lemma sample_latencies_spec n : ∀ latencies self,
  ∃ self',
    results self' = results self ∧
    sample_latencies w n latencies self
    = (match latencies_of (upcoming_pings w self n) with
       | Some more => Ok (latencies ++ more)
       | None => Raise CollaboratorError
       end, self').
Proof.
  induction n as [| n IH]; intros latencies self.
  - exists self. split; [done |]. cbn. by rewrite app_nil_r.
  - rewrite upcoming_pings_S. cbn [sample_latencies]. unfold bind, call_ping.
    destruct (ping w (calls self)) as [rtt | |]; cbn [latencies_of].
    + destruct (IH (latencies ++ [(rtt * 1000)%Q]) (tick self)) as (self' & Hres & ->).
      exists self'. split; [done |].
      destruct (latencies_of _); cbn; [by rewrite <- app_assoc | done].
    + destruct (IH latencies (tick self)) as (self' & Hres & ->).
      exists self'. by split.
    + exists (tick self). by split.
Qed.

Lemma count_replies_spec n : ∀ received self,
  ∃ self',
    results self' = results self ∧
    count_replies w n received self
    = (match latencies_of (upcoming_pings w self n) with
       | Some more => Ok (received + Z.of_nat (length more))
       | None => Raise CollaboratorError
       end, self').
Proof.
  induction n as [| n IH]; intros received self.
  - exists self. split; [done |]. cbn. by rewrite Z.add_0_r.
  - rewrite upcoming_pings_S. cbn [count_replies]. unfold bind, call_ping.
    destruct (ping w (calls self)) as [rtt | |]; cbn [latencies_of].
    + destruct (IH (received + 1) (tick self)) as (self' & Hres & ->).
      exists self'. split; [done |].
      destruct (latencies_of _); cbn; [do 2 f_equal; lia | done].
    + destruct (IH received (tick self)) as (self' & Hres & ->).
      exists self'. by split.
    + exists (tick self). by split.
Qed.

(** What each sampling method leaves under its key. *)
Lemma measure_latency_entry self :
  (measure_latency w self).1 = Ok tt ∧
  results (measure_latency w self).2 !! "latency"
  = Some (match latencies_of (upcoming_pings w self (Z.to_nat (sample_size self))) with
          | Some latencies => entry_of (latency_summary latencies)
          | None => None
          end).
Proof.
  unfold measure_latency, try_except, bind, get_sample_size, lift.
  destruct (sample_latencies_spec (Z.to_nat (sample_size self)) [] self)
    as (self' & Hres & ->).
  destruct (latencies_of _) as [latencies |]; cbn.
  - destruct (latency_summary latencies) as [record | e] eqn:Hsum; cbn.
    + by rewrite lookup_insert_eq.
    + rewrite (latency_summary_catchable _ _ Hsum). cbn. by rewrite lookup_insert_eq.
  - by rewrite lookup_insert_eq.
Qed.

Lemma measure_jitter_entry self :
  (measure_jitter w self).1 = Ok tt ∧
  results (measure_jitter w self).2 !! "jitter"
  = Some (match latencies_of (upcoming_pings w self (Z.to_nat (sample_size self))) with
          | Some latencies => entry_of (jitter_summary latencies)
          | None => None
          end).
Proof.
  unfold measure_jitter, try_except, bind, get_sample_size, lift.
  destruct (sample_latencies_spec (Z.to_nat (sample_size self)) [] self)
    as (self' & Hres & ->).
  destruct (latencies_of _) as [latencies |]; cbn.
  - destruct (jitter_summary latencies) as [record | e] eqn:Hsum; cbn.
    + by rewrite lookup_insert_eq.
    + rewrite (jitter_summary_catchable _ _ Hsum). cbn. by rewrite lookup_insert_eq.
  - by rewrite lookup_insert_eq.
Qed.

Lemma measure_packet_loss_entry self :
  (measure_packet_loss w self).1 = Ok tt ∧
  results (measure_packet_loss w self).2 !! "packet_loss"
  = Some (match latencies_of (upcoming_pings w self (Z.to_nat (sample_size self))) with
          | Some latencies =>
              let sent := sample_size self in
              let received := Z.of_nat (length latencies) in
              if sent =? 0 then None
              else Some (PacketLoss
                           (Num.round (inject_Z (sent - received) / inject_Z sent * 100) 2)
                           sent received)
          | None => None
          end).
Proof.
  unfold measure_packet_loss, try_except, bind, get_sample_size, lift.
  destruct (count_replies_spec (Z.to_nat (sample_size self)) 0 self)
    as (self' & Hres & ->).
  destruct (latencies_of _) as [latencies |]; cbn.
  - unfold truediv. destruct (sample_size self =? 0); cbn; by rewrite lookup_insert_eq.
  - by rewrite lookup_insert_eq.
Qed.

End Sampling.

(** ** C2: the latency summary *)

(** C2.  The summary block of [measure_latency] yields no record for an empty
    sample list; for a single sample [x] its three fields are all [round(x, 2)]
    (so [x] itself when [x] has at most two decimals); for [1, 2, 3] it is
    average 2, minimum 1, maximum 3; for any non-empty list the fields are the
    mean, a least and a greatest element of the list, each rounded to two
    decimals (a multiple of 1/100 within 1/200 of the value); and the entry
    [measure_latency] stores is that summary taken over exactly the samples
    that succeeded. *)
Theorem latency_summary_statistics :
  entry_of (latency_summary []) = None ∧
  (∀ x : Q, latency_summary [x]
            = Ok (Stats (Num.round x 2) (Num.round x 2) (Num.round x 2))) ∧
  (∀ k : Z, latency_summary [k # 100]
            = Ok (Stats (Qred (k # 100)) (Qred (k # 100)) (Qred (k # 100)))) ∧
  latency_summary [1%Q; 2%Q; 3%Q] = Ok (Stats 2 1 3) ∧
  (∀ (x : Q) (data : list Q), ∃ avg lo hi : Q,
      latency_summary (x :: data)
      = Ok (Stats (Num.round avg 2) (Num.round lo 2) (Num.round hi 2)) ∧
      (avg * inject_Z (Z.of_nat (length (x :: data)))
       == fold_right Qplus 0 (x :: data))%Q ∧
      (lo ∈ x :: data ∧ ∀ y, y ∈ x :: data → (lo <= y)%Q) ∧
      (hi ∈ x :: data ∧ ∀ y, y ∈ x :: data → (y <= hi)%Q)) ∧
  (∀ q : Q, (Qabs (Num.round q 2 - q) <= 1 # 200)%Q ∧
            ∃ k : Z, Num.round q 2 = Qred (k # 100)) ∧
  (∀ (w : World) (self : NetworkTester),
      (measure_latency w self).1 = Ok tt ∧
      results (measure_latency w self).2 !! "latency"
      = Some (match latencies_of
                      (upcoming_pings w self (Z.to_nat (sample_size self))) with
              | Some latencies => entry_of (latency_summary latencies)
              | None => None
              end)).
Proof.
  split; [reflexivity |].
  split; [intros x; apply stats_record_singleton |].
  split.
  { intros k. unfold latency_summary. rewrite stats_record_singleton.
    by rewrite NumFacts.round_2_hundredths. }
  split; [vm_compute; reflexivity |].
  split; [intros x data; apply stats_record_spec |].
  split.
  { intros q. split; [apply NumFacts.round_2_error |]. eexists. reflexivity. }
  intros w self. apply measure_latency_entry.
Qed.

(** ** C3: jitter *)

Section Jitter.

Local Open Scope Q_scope.

Lemma differences_cons2 (x y : Q) (latencies : list Q) :
  differences (x :: y :: latencies) = Qabs (y - x) :: differences (y :: latencies).
Proof.
  unfold differences. cbn [length]. rewrite !Nat.sub_succ, !Nat.sub_0_r.
  cbn [seq map]. f_equal.
  rewrite <- seq_shift, map_map. apply map_ext_in.
  intros i Hi. apply in_seq in Hi.
  destruct i as [| i]; [lia |]. cbn. by rewrite Nat.sub_0_r.
Qed.

Lemma differences_length (latencies : list Q) :
  length (differences latencies) = (length latencies - 1)%nat.
Proof. unfold differences. by rewrite length_map, length_seq. Qed.

End Jitter.

(** C3.  [measure_jitter] summarises the absolute differences of adjacent
    successful latencies: the difference list of [x, y, ...] starts with
    [|y - x|] and goes on with the differences of [y, ...]; for [10, 15, 12]
    the differences are [5, 3] and the record is average 4, minimum 3,
    maximum 5; with no or one successful sample there is no record; and the
    entry stored under ["jitter"] is that summary of the successful samples,
    in the order they were taken. *)
Theorem jitter_of_adjacent_differences :
  (∀ (x y : Q) (latencies : list Q),
      differences (x :: y :: latencies)
      = Qabs (y - x) :: differences (y :: latencies)) ∧
  (∀ x y : Q, ∀ latencies : list Q, ∃ avg lo hi : Q,
      let ds := differences (x :: y :: latencies) in
      jitter_summary (x :: y :: latencies)
      = Ok (Stats (Num.round avg 2) (Num.round lo 2) (Num.round hi 2)) ∧
      (avg * inject_Z (Z.of_nat (length ds)) == fold_right Qplus 0 ds)%Q ∧
      (lo ∈ ds ∧ ∀ d, d ∈ ds → (lo <= d)%Q) ∧
      (hi ∈ ds ∧ ∀ d, d ∈ ds → (d <= hi)%Q)) ∧
  differences [10%Q; 15%Q; 12%Q] = [5%Q; 3%Q] ∧
  jitter_summary [10%Q; 15%Q; 12%Q] = Ok (Stats 4 3 5) ∧
  entry_of (jitter_summary []) = None ∧
  (∀ x : Q, entry_of (jitter_summary [x]) = None) ∧
  (∀ (w : World) (self : NetworkTester),
      (measure_jitter w self).1 = Ok tt ∧
      results (measure_jitter w self).2 !! "jitter"
      = Some (match latencies_of
                      (upcoming_pings w self (Z.to_nat (sample_size self))) with
              | Some latencies => entry_of (jitter_summary latencies)
              | None => None
              end)) ∧
  results (measure_jitter
             (with_pings [PingReply (10 # 1000); PingNone; PingReply (15 # 1000);
                          PingReply (12 # 1000)])
             (init "8.8.8.8" 4)).2 !! "jitter"
  = Some (Some (Stats 4 3 5)).
Proof.
  split; [apply differences_cons2 |].
  split.
  { intros x y latencies. unfold jitter_summary. cbn [length Nat.leb].
    rewrite differences_cons2.
    apply (stats_record_spec (Qabs (y - x)) (differences (y :: latencies))). }
  split; [vm_compute; reflexivity |].
  split; [vm_compute; reflexivity |].
  split; [reflexivity |].
  split; [reflexivity |].
  split; [intros w self; apply measure_jitter_entry |].
  vm_compute; reflexivity.
Qed.

(** ** C4 and C8: runs without a successful sample *)

Lemma latencies_of_no_reply (pings : list ping_outcome) :
  forallb (λ p, negb (is_reply p)) pings = true →
  latencies_of pings = if existsb is_error pings then None else Some [].
Proof.
  induction pings as [| p pings IH]; [done |].
  cbn [forallb existsb]. intros H. apply andb_true_iff in H as [Hp Hrest].
  destruct p; cbn in *; [done | by apply IH | done].
Qed.

Lemma full_loss_rate (sent : Z) :
  sent ≠ 0 →
  Num.round (inject_Z (sent - Z.of_nat (length (@nil Q))) / inject_Z sent * 100) 2
  = 100%Q.
Proof.
  intros Hsent. rewrite (NumFacts.round_comp _ 100%Q); [reflexivity |].
  cbn [length Z.of_nat]. rewrite Z.sub_0_r.
  field. unfold Qeq; cbn. lia.
Qed.

(** C4 (as amended).  When every ping of a measurement ends without a
    reply in one of the two ways the methods recognise, by returning [None]
    or by raising, each of the three sampling methods returns normally;
    [measure_latency] and [measure_jitter] store [None];
    [measure_packet_loss] stores [None] only if the sample size is zero or a
    ping raised, and otherwise stores the record of a complete loss: rate
    100, the sample size as packets sent, and zero packets received.  (A
    ping that reports its failure as [False] is outside this statement: see
    [false_counts_as_a_reply].) *)
Theorem no_reply_entries (w : World) (self : NetworkTester) :
  forallb (λ p, negb (is_reply p))
          (upcoming_pings w self (Z.to_nat (sample_size self))) = true →
  ((measure_latency w self).1 = Ok tt ∧
   results (measure_latency w self).2 !! "latency" = Some None) ∧
  ((measure_jitter w self).1 = Ok tt ∧
   results (measure_jitter w self).2 !! "jitter" = Some None) ∧
  ((measure_packet_loss w self).1 = Ok tt ∧
   results (measure_packet_loss w self).2 !! "packet_loss"
   = Some (if (sample_size self =? 0)
              || existsb is_error
                   (upcoming_pings w self (Z.to_nat (sample_size self)))
           then None
           else Some (PacketLoss 100 (sample_size self) 0))).
Proof.
  intros Hnone. apply latencies_of_no_reply in Hnone.
  destruct (measure_latency_entry w self) as [Hl1 Hl2].
  destruct (measure_jitter_entry w self) as [Hj1 Hj2].
  destruct (measure_packet_loss_entry w self) as [Hp1 Hp2].
  rewrite Hnone in Hl2, Hj2, Hp2.
  repeat split; try done.
  - rewrite Hl2. by destruct (existsb _ _).
  - rewrite Hj2. by destruct (existsb _ _).
  - rewrite Hp2. destruct (existsb _ _); [by rewrite orb_true_r |].
    rewrite orb_false_r. cbn zeta.
    destruct (Z.eqb_spec (sample_size self) 0) as [| Hsent]; [done |].
    by rewrite full_loss_rate.
Qed.

Lemma no_reply_entries_witness :
  results (measure_latency quiet_world (init "8.8.8.8" 5)).2 !! "latency" = Some None ∧
  results (measure_jitter quiet_world (init "8.8.8.8" 5)).2 !! "jitter" = Some None ∧
  results (measure_packet_loss quiet_world (init "8.8.8.8" 5)).2 !! "packet_loss"
  = Some (Some (PacketLoss 100 5 0)).
Proof.
  destruct (no_reply_entries quiet_world (init "8.8.8.8" 5))
    as ((_ & Hl) & (_ & Hj) & (_ & Hp)); [reflexivity |].
  split; [exact Hl |]. split; [exact Hj | exact Hp].
Defined.

(** What the methods make of a ping that reports its failure as [False]:
    a reply of 0 ms.  Five such pings give a latency record of zeros and a
    loss rate of 0. *)
Lemma false_counts_as_a_reply :
  results (measure_latency (with_pings (replicate 5 (PingReply 0)))
             (init "8.8.8.8" 5)).2 !! "latency"
  = Some (Some (Stats 0 0 0)) ∧
  results (measure_packet_loss (with_pings (replicate 5 (PingReply 0)))
             (init "8.8.8.8" 5)).2 !! "packet_loss"
  = Some (Some (PacketLoss 0 5 5)).
Proof. split; vm_compute; reflexivity. Qed.

(** C4 as stated fails for packet loss: five pings, none answered, and the
    entry is a record, not [None]. *)
Lemma complete_loss_is_a_record :
  forallb (λ p, negb (is_reply p))
          (upcoming_pings quiet_world (init "8.8.8.8" 5) 5) = true ∧
  (measure_packet_loss quiet_world (init "8.8.8.8" 5)).1 = Ok tt ∧
  results (measure_packet_loss quiet_world (init "8.8.8.8" 5)).2 !! "packet_loss"
  = Some (Some (PacketLoss 100 5 0)) ∧
  results (measure_packet_loss quiet_world (init "8.8.8.8" 5)).2 !! "packet_loss"
  ≠ Some None.
Proof.
  split; [reflexivity |]. split; [reflexivity |].
  split; [vm_compute; reflexivity |]. vm_compute. discriminate.
Qed.

Section ZeroRun.

Variable w : World.

Lemma zero_run_step key m self :
  stores key m →
  (key ∈ sampling_keys → sample_size self = 0 →
   results (m self).2 !! key = Some None) →
  zero_run self → zero_run (m self).2.
Proof.
  intros Hstores Hentry [Hzero Hnone].
  destruct (Hstores self) as (v & self' & Hrun & Hres & Hsize).
  rewrite Hrun in *. cbn [snd] in *. split; [congruence |].
  intros key' value Hkey'. rewrite Hres.
  destruct (decide (key = key')) as [<- | Hne].
  - rewrite lookup_insert_eq. intros [= <-].
    specialize (Hentry Hkey' Hzero). rewrite Hres, lookup_insert_eq in Hentry.
    congruence.
  - rewrite lookup_insert_ne by done. by apply Hnone.
Qed.

Lemma zero_latency self :
  sample_size self = 0 → results (measure_latency w self).2 !! "latency" = Some None.
Proof.
  intros Hzero. destruct (measure_latency_entry w self) as [_ ->].
  by rewrite Hzero.
Qed.

Lemma zero_jitter self :
  sample_size self = 0 → results (measure_jitter w self).2 !! "jitter" = Some None.
Proof.
  intros Hzero. destruct (measure_jitter_entry w self) as [_ ->].
  by rewrite Hzero.
Qed.

Lemma zero_packet_loss self :
  sample_size self = 0 →
  results (measure_packet_loss w self).2 !! "packet_loss" = Some None.
Proof.
  intros Hzero. destruct (measure_packet_loss_entry w self) as [_ ->].
  by rewrite Hzero.
Qed.

Lemma not_sampling key : key ∉ sampling_keys → key ∈ sampling_keys → ∀ P : Prop, P.
Proof. intros Hn Hy. by destruct Hn. Qed.

Lemma zero_run_method name :
  name ∈ choices →
  ∃ method,
    getitem (metric_methods w) name = Ok method ∧
    stores (report_key name) method ∧
    ∀ self, zero_run self → zero_run (method self).2.
Proof.
  intros H. apply elem_of_choices in H.
  destruct H as [-> | [-> | [-> | [-> | [-> | ->]]]]];
    eexists; (split; [reflexivity |]).
  - split; [apply stores_measure_latency |]. intros self.
    apply (zero_run_step "latency"); [apply stores_measure_latency | intros _; apply zero_latency].
  - split; [apply stores_measure_packet_loss |]. intros self.
    apply (zero_run_step "packet_loss");
      [apply stores_measure_packet_loss | intros _; apply zero_packet_loss].
  - split; [apply stores_measure_bandwidth |]. intros self.
    apply (zero_run_step "bandwidth"); [apply stores_measure_bandwidth |].
    intros Hin. apply (not_sampling "bandwidth"); [| done].
    unfold sampling_keys; set_solver.
  - split; [apply stores_measure_jitter |]. intros self.
    apply (zero_run_step "jitter"); [apply stores_measure_jitter | intros _; apply zero_jitter].
  - split; [apply stores_measure_mtu |]. intros self.
    apply (zero_run_step "mtu"); [apply stores_measure_mtu |].
    intros Hin. apply (not_sampling "mtu"); [| done].
    unfold sampling_keys; set_solver.
  - split; [apply stores_measure_dns_resolution |]. intros self.
    apply (zero_run_step "dns_resolution"); [apply stores_measure_dns_resolution |].
    intros Hin. apply (not_sampling "dns_resolution"); [| done].
    unfold sampling_keys; set_solver.
Qed.

Lemma run_requested_zero names :
  Forall (λ name, name ∈ choices) names →
  ∀ self, zero_run self →
    ∃ self', run_requested w names self = (Ok tt, self') ∧ zero_run self'.
Proof.
  intros Hall.
  induction Hall as [| name names Hname Hrest IH]; intros self Hself;
    cbn [run_requested].
  - by exists self.
  - destruct (zero_run_method name Hname) as (method & Hget & Hstores & Hkeeps).
    unfold bind, lift. rewrite Hget.
    specialize (Hkeeps self Hself).
    destruct (Hstores self) as (v & self1 & Hrun & _). rewrite Hrun in *.
    by apply IH.
Qed.

Lemma run_each_zero_gen (methods : list (string * M unit)) :
  Forall (λ nm, ∀ self, zero_run self →
                  ∃ self', nm.2 self = (Ok tt, self') ∧ zero_run self') methods →
  ∀ self, zero_run self →
    ∃ self', run_each methods self = (Ok tt, self') ∧ zero_run self'.
Proof.
  intros Hall.
  induction Hall as [| [name method] methods Hmethod Hrest IH]; intros self Hself;
    cbn [run_each].
  - by exists self.
  - unfold bind. destruct (Hmethod self Hself) as (self1 & Hrun & Hzero).
    cbn [snd] in Hrun. rewrite Hrun. by apply IH.
Qed.

Lemma zero_run_runs name self :
  name ∈ choices →
  ∀ method, getitem (metric_methods w) name = Ok method →
  zero_run self →
  ∃ self', method self = (Ok tt, self') ∧ zero_run self'.
Proof.
  intros Hname method Hget Hself.
  destruct (zero_run_method name Hname) as (method' & Hget' & Hstores & Hkeeps).
  assert (method' = method) as -> by congruence.
  specialize (Hkeeps self Hself).
  destruct (Hstores self) as (v & self1 & Hrun & _). rewrite Hrun in *.
  by exists self1.
Qed.

Lemma run_each_zero self :
  zero_run self →
  ∃ self', run_each (metric_methods w) self = (Ok tt, self') ∧ zero_run self'.
Proof.
  revert self. apply run_each_zero_gen. unfold metric_methods.
  repeat first [apply Forall_nil_2 | apply Forall_cons_2]; intros s Hs; cbn [snd].
  - apply (zero_run_runs "latency"); [unfold choices; set_solver | done | done].
  - apply (zero_run_runs "packet_loss"); [unfold choices; set_solver | done | done].
  - apply (zero_run_runs "bandwidth"); [unfold choices; set_solver | done | done].
  - apply (zero_run_runs "jitter"); [unfold choices; set_solver | done | done].
  - apply (zero_run_runs "mtu"); [unfold choices; set_solver | done | done].
  - apply (zero_run_runs "dns"); [unfold choices; set_solver | done | done].
Qed.

Lemma zero_run_init tgt : zero_run (init tgt 0).
Proof. split; [done |]. intros key value _. cbn. by rewrite lookup_empty. Qed.

Lemma main_zero_samples tgt requested :
  (∀ names, requested = Some names →
            names ≠ [] ∧ Forall (λ name, name ∈ choices) names) →
  ∃ tester,
    main w {| target := tgt; samples := 0; metrics := requested |} = Ok tester ∧
    ∀ key, key ∈ sampling_keys → key ∈ default choices requested →
           results tester !! key = Some None.
Proof.
  intros Hvalid.
  assert (∃ tester,
    main w {| target := tgt; samples := 0; metrics := requested |} = Ok tester ∧
    zero_run tester ∧
    dom (results tester) = list_to_set (report_key <$> default choices requested))
    as (tester & Hmain & [_ Hnone] & Hdom).
  { destruct requested as [names |]; cbn [default].
    - destruct (Hvalid names eq_refl) as [Hne Hall].
      destruct (main_requested_keys w tgt 0 names Hne Hall) as (tester & Hmain & Hdom).
      exists tester. split; [exact Hmain |]. split; [| exact Hdom].
      unfold main in Hmain. rewrite parse_args_valid in Hmain by done.
      cbn in Hmain. destruct names as [| name names]; [done |].
      destruct (run_requested_zero _ Hall (init tgt 0) (zero_run_init tgt))
        as (self' & Hrun & Hzero).
      rewrite Hrun in Hmain. by injection Hmain as <-.
    - destruct (main_default_keys w tgt 0) as (tester & Hmain & Hdom).
      exists tester. split; [exact Hmain |]. split; [| exact Hdom].
      unfold main in Hmain. cbn -[run_each metric_methods] in Hmain.
      destruct (run_each_zero (init tgt 0) (zero_run_init tgt))
        as (self' & Hrun & Hzero).
      rewrite Hrun in Hmain. by injection Hmain as <-. }
  exists tester. split; [exact Hmain |].
  intros key Hkey Hrequested.
  assert (report_key key = key) as Hsame.
  { unfold sampling_keys in Hkey.
    apply elem_of_cons in Hkey as [-> | Hkey]; [done |].
    apply elem_of_cons in Hkey as [-> | Hkey]; [done |].
    apply list_elem_of_singleton in Hkey as ->. done. }
  assert (key ∈ dom (results tester)) as Hin.
  { rewrite Hdom. apply elem_of_list_to_set, list_elem_of_fmap.
    exists key. by rewrite Hsame. }
  apply elem_of_dom in Hin as [value Hvalue].
  by rewrite Hvalue, (Hnone key value Hkey Hvalue).
Qed.

End ZeroRun.

(** C8.  With a sample size of zero, whatever the network would answer, the
    three sampling methods return normally and each stores [None] under its
    key; and a whole run asked for zero samples reaches its end with [None]
    under each sampling metric it was asked for. *)
Theorem zero_samples_entries :
  (∀ (w : World) (self : NetworkTester),
      sample_size self = 0 →
      ((measure_latency w self).1 = Ok tt ∧
       results (measure_latency w self).2 !! "latency" = Some None) ∧
      ((measure_packet_loss w self).1 = Ok tt ∧
       results (measure_packet_loss w self).2 !! "packet_loss" = Some None) ∧
      ((measure_jitter w self).1 = Ok tt ∧
       results (measure_jitter w self).2 !! "jitter" = Some None)) ∧
  (∀ (w : World) (tgt : string) (requested : option (list string)),
      (∀ names, requested = Some names →
                names ≠ [] ∧ Forall (λ name, name ∈ choices) names) →
      ∃ tester,
        main w {| target := tgt; samples := 0; metrics := requested |} = Ok tester ∧
        ∀ key, key ∈ sampling_keys → key ∈ default choices requested →
               results tester !! key = Some None).
Proof.
  split.
  - intros w self Hzero.
    destruct (measure_latency_entry w self) as [Hl1 _].
    destruct (measure_jitter_entry w self) as [Hj1 _].
    destruct (measure_packet_loss_entry w self) as [Hp1 _].
    repeat split; try done.
    + by apply zero_latency.
    + by apply zero_packet_loss.
    + by apply zero_jitter.
  - intros w tgt requested. apply main_zero_samples.
Qed.

Lemma zero_samples_entries_witness :
  sample_size (init "8.8.8.8" 0) = 0 ∧
  results (measure_latency (with_pings [PingReply (1 # 100)])
             (init "8.8.8.8" 0)).2 !! "latency" = Some None ∧
  results (measure_packet_loss (with_pings [PingReply (1 # 100)])
             (init "8.8.8.8" 0)).2 !! "packet_loss" = Some None ∧
  results (measure_jitter (with_pings [PingReply (1 # 100)])
             (init "8.8.8.8" 0)).2 !! "jitter" = Some None ∧
  ∃ tester,
    main (with_pings [PingReply (1 # 100)])
         {| target := "8.8.8.8"; samples := 0; metrics := None |} = Ok tester ∧
    results tester !! "packet_loss" = Some None.
Proof.
  destruct zero_samples_entries as [Hmethods Hmain].
  split; [reflexivity |].
  destruct (Hmethods (with_pings [PingReply (1 # 100)])
              (init "8.8.8.8" 0) eq_refl) as ((_ & Hl) & (_ & Hp) & (_ & Hj)).
  split; [exact Hl |]. split; [exact Hp |]. split; [exact Hj |].
  destruct (Hmain (with_pings [PingReply (1 # 100)]) "8.8.8.8" None)
    as (tester & Hrun & Hnone); [intros names; discriminate |].
  exists tester. split; [exact Hrun |].
  apply Hnone; [unfold sampling_keys | cbn; unfold choices]; set_solver.
Defined.

(** ** The MTU descent *)

Section Descent.

Variable p : Path.

(** The loop ends: each iteration takes ten off a size that fuel covers. *)
Lemma mtu_descent_terminates (fuel : nat) : ∀ (mtu_size : Z) (elapsed : Q),
  mtu_size ≤ 10 * Z.of_nat fuel →
  is_Some (mtu_descent p fuel mtu_size elapsed).
Proof.
  induction fuel as [| fuel IH]; intros mtu_size elapsed Hfuel; cbn [mtu_descent].
  - destruct (Z.gtb_spec mtu_size 0); [lia | eauto].
  - destruct (Z.gtb_spec mtu_size 0); [| eauto].
    destruct (Num.Qltb timeout_seconds elapsed); [eauto |].
    destruct (sr1 p mtu_size); [eauto | | eauto].
    apply IH. lia.
Qed.

Lemma measure_mtu_with_timeout_runs :
  mtu_descent p 150 1500 0 = Some (measure_mtu_with_timeout p).
Proof.
  unfold measure_mtu_with_timeout.
  destruct (mtu_descent_terminates 150 1500 0) as [r ->]; [lia | done].
Qed.

End Descent.

Section MtuEntry.

Variable w : World.

Lemma measure_mtu_joined (self : NetworkTester) (value : entry) (finished : Q) :
  _measure_mtu_thread (path w (calls self)) = (Some value, finished) →
  (finished <= 10)%Q →
  (measure_mtu w self).1 = Ok tt ∧
  results (measure_mtu w self).2 = <["mtu" := value]> (results self) ∧
  abandoned (measure_mtu w self).2 = abandoned self.
Proof.
  intros Hthread Hfinished.
  unfold measure_mtu, try_except, bind, start_mtu_thread. rewrite Hthread.
  rewrite (proj2 (NumFacts.Qltb_ge _ _) Hfinished). cbn. by rewrite lookup_insert_eq.
Qed.

Lemma measure_mtu_deadline (self : NetworkTester) (written : option entry) (finished : Q) :
  _measure_mtu_thread (path w (calls self)) = (written, finished) →
  (10 < finished)%Q →
  (measure_mtu w self).1 = Ok tt ∧
  results (measure_mtu w self).2 = <["mtu" := None]> (results self) ∧
  abandoned (measure_mtu w self).2
  = abandoned self ++ match written with Some value => [value] | None => [] end.
Proof.
  intros Hthread Hfinished.
  unfold measure_mtu, try_except, bind, start_mtu_thread. rewrite Hthread.
  rewrite (proj2 (NumFacts.Qltb_lt _ _) Hfinished).
  destruct written; cbn; [done |]. by rewrite app_nil_r.
Qed.

End MtuEntry.

(** ** C5: what the probes carry *)

Lemma mtu_descent_ext (p q : Path) (fuel : nat) :
  (∀ mtu_size, sr1 p mtu_size = sr1 q mtu_size) →
  (∀ mtu_size, sr1_cost p mtu_size = sr1_cost q mtu_size) →
  ∀ (mtu_size : Z) (elapsed : Q),
    mtu_descent p fuel mtu_size elapsed = mtu_descent q fuel mtu_size elapsed.
Proof.
  intros Hsr1 Hcost.
  induction fuel as [| fuel IH]; intros mtu_size elapsed; cbn [mtu_descent];
    [done |].
  rewrite Hsr1, Hcost. destruct (mtu_size >? 0); [| done].
  destruct (Num.Qltb timeout_seconds elapsed); [done |].
  by destruct (sr1 q mtu_size).
Qed.

Lemma search_over_a_link (link : Link) :
  (measure_mtu_with_timeout (path_over link)).1
  = if passes link 40 then Ok 1500
    else Raise (TimeoutException "MTU measurement timed out").
Proof.
  unfold measure_mtu_with_timeout.
  destruct (passes link 40) eqn:Hpasses.
  - rewrite (mtu_descent_ext (path_over link)
               {| sr1 := λ _, Sr1Reply; sr1_cost := λ _, reply_time link |}).
    + vm_compute. reflexivity.
    + intros mtu_size. cbn. unfold probe_length. by rewrite Hpasses.
    + intros mtu_size. cbn. unfold probe_length. by rewrite Hpasses.
  - rewrite (mtu_descent_ext (path_over link) (silent_path 1)).
    + vm_compute. reflexivity.
    + intros mtu_size. cbn. unfold probe_length. by rewrite Hpasses.
    + intros mtu_size. cbn. unfold probe_length. by rewrite Hpasses.
Qed.

(** C5.  The search as the program runs it.  Every probe is the same 40
    bytes, so over a link the first probe decides: if the link answers 40
    bytes the search returns 1500 at once, and if not it raises after the
    tenth second.  On the link whose path MTU is 1000 bytes, which drops a
    packet of 1010 bytes and more, it returns 1500 and 1500 is stored, not
    1000. *)
Theorem probes_ignore_the_candidate :
  (∀ link : Link,
      (measure_mtu_with_timeout (path_over link)).1
      = if passes link 40 then Ok 1500
        else Raise (TimeoutException "MTU measurement timed out")) ∧
  (passes link_1000 1000 = true ∧ passes link_1000 1010 = false ∧
   passes link_1000 1500 = false) ∧
  (measure_mtu_with_timeout (path_over link_1000)).1 = Ok 1500 ∧
  (measure_mtu_with_timeout (path_over link_1000)).1 ≠ Ok 1000 ∧
  results (measure_mtu (with_path (path_over link_1000)) (init "8.8.8.8" 10)).2
    !! "mtu"
  = Some (Some (Mtu 1500)).
Proof.
  split; [apply search_over_a_link |].
  split; [done |].
  split; [by rewrite search_over_a_link |].
  split; [by rewrite search_over_a_link |].
  vm_compute. reflexivity.
Qed.

(** ** C6 and C9: the thread that was given up *)

(** C6.  A search that takes 10.3 s.  When the join gives up after ten
    seconds [measure_mtu] stores [None] and the run goes on to the latency
    probe; the thread ends 0.3 s later and stores the size it found.  The
    tester handed to the report holds 1410 under ["mtu"], for a search that
    exceeded its ten seconds; and it is the same report whether the thread
    ends before the latency probe or after it. *)
Theorem late_size_reaches_the_report :
  (10 < (measure_mtu_with_timeout late_reply_path).2)%Q ∧
  results (measure_mtu (with_path late_reply_path) (init "8.8.8.8" 10)).2 !! "mtu"
  = Some None ∧
  results (measure_latency (with_path late_reply_path)
             (late_write
                (measure_mtu (with_path late_reply_path) (init "8.8.8.8" 10)).2)).2
    !! "mtu"
  = Some (Some (Mtu 1410)) ∧
  ∃ tester,
    main (with_path late_reply_path)
         {| target := "8.8.8.8"; samples := 10; metrics := Some ["mtu"; "latency"] |}
    = Ok tester ∧
    results tester !! "mtu" = Some None ∧
    results (late_write tester) !! "mtu" = Some (Some (Mtu 1410)) ∧
    results (late_write tester)
    = results (measure_latency (with_path late_reply_path)
                 (late_write
                    (measure_mtu (with_path late_reply_path)
                       (init "8.8.8.8" 10)).2)).2.
Proof.
  split; [vm_compute; reflexivity |].
  split; [vm_compute; reflexivity |].
  split; [vm_compute; reflexivity |].
  eexists. split; [reflexivity |].
  split; [vm_compute; reflexivity |].
  split; vm_compute; reflexivity.
Qed.

(** C9.  The same search seen from [measure_mtu]: the reply to the tenth
    probe arrives after the join has given up; the caller has stored [None]
    and moved on, and the thread, which nothing tells to give up its result,
    then replaces it by its own. *)
Lemma late_result_overwrites_verdict :
  (measure_mtu (with_path late_reply_path) (init "8.8.8.8" 10)).1 = Ok tt ∧
  (_measure_mtu_thread late_reply_path).1 = Some (Some (Mtu 1410)) ∧
  ((_measure_mtu_thread late_reply_path).2 == 103 # 10)%Q ∧
  results (measure_mtu (with_path late_reply_path) (init "8.8.8.8" 10)).2 !! "mtu"
  = Some None ∧
  results (late_write (measure_mtu (with_path late_reply_path) (init "8.8.8.8" 10)).2)
    !! "mtu"
  = Some (Some (Mtu 1410)).
Proof.
  split; [reflexivity |]. split; [vm_compute; reflexivity |].
  split; [vm_compute; reflexivity |].
  split; vm_compute; reflexivity.
Qed.

(** ** C10: the shape of the bandwidth entry *)

(** C10.  [measure_bandwidth] always returns normally and always stores a
    record under ["bandwidth"]: when a server was found, its two fields are
    the download and the upload speed, each [None] exactly when that transfer
    failed; when the measurement failed as a whole, both are [None].  The
    other five methods store a plain [None] when they fail. *)
Theorem bandwidth_entry_is_a_record :
  (∀ (w : World) (self : NetworkTester),
      (measure_bandwidth w self).1 = Ok tt ∧
      results (measure_bandwidth w self).2 !! "bandwidth"
      = Some (Some (let st := speedtest w (calls self) in
                    if st_config st && st_best_server st
                    then Bandwidth (speed_of (st_download st)) (speed_of (st_upload st))
                    else Bandwidth None None))) ∧
  (∀ down up : Q,
      speed_of (Transferred down) ≠ None ∧ speed_of TransferError = None ∧
      results (measure_bandwidth
                 (with_speedtest {| st_config := true; st_best_server := true;
                                    st_download := TransferError;
                                    st_upload := Transferred up |})
                 (init "8.8.8.8" 10)).2 !! "bandwidth"
      = Some (Some (Bandwidth None (Some (Num.round (up / 1000000) 2)))) ∧
      results (measure_bandwidth
                 (with_speedtest {| st_config := true; st_best_server := true;
                                    st_download := Transferred down;
                                    st_upload := TransferError |})
                 (init "8.8.8.8" 10)).2 !! "bandwidth"
      = Some (Some (Bandwidth (Some (Num.round (down / 1000000) 2)) None))) ∧
  (results (measure_latency quiet_world (init "8.8.8.8" 10)).2 !! "latency" = Some None ∧
   results (measure_jitter quiet_world (init "8.8.8.8" 10)).2 !! "jitter" = Some None ∧
   results (measure_packet_loss quiet_world (init "8.8.8.8" 0)).2 !! "packet_loss"
   = Some None ∧
   results (measure_mtu quiet_world (init "8.8.8.8" 10)).2 !! "mtu" = Some None ∧
   results (measure_dns_resolution quiet_world (init "8.8.8.8" 10)).2 !! "dns_resolution"
   = Some None ∧
   results (measure_bandwidth quiet_world (init "8.8.8.8" 10)).2 !! "bandwidth"
   = Some (Some (Bandwidth None None))).
Proof.
  split; [| split].
  - intros w self.
    unfold measure_bandwidth, try_except, bind, new_speedtest, get_best_server,
      run_transfer, lift, raise, ret, speed_of.
    destruct (speedtest w (calls self)) as [config best down up]; cbn.
    destruct config; cbn; [| by rewrite lookup_insert_eq].
    destruct best; cbn; [| by rewrite lookup_insert_eq].
    destruct down, up; cbn; by rewrite lookup_insert_eq.
  - intros down up. split; [done |]. split; [done |].
    split; cbn; by rewrite lookup_insert_eq.
  - repeat split; vm_compute; reflexivity.
Qed.

(** * Further properties *)

(** ** Order and rounding *)

Module NumOrder.

Local Open Scope Q_scope.

Lemma round_half_even_mono (x y : Q) :
  x <= y → (Num.round_half_even x ≤ Num.round_half_even y)%Z.
Proof.
  intros Hxy.
  destruct (Z_le_gt_dec (Num.round_half_even x) (Num.round_half_even y))
    as [| Hgt]; [done | exfalso].
  pose proof (NumFacts.round_half_even_error x) as Hx.
  pose proof (NumFacts.round_half_even_error y) as Hy.
  apply Qabs_Qle_condition in Hx as [_ Hx].
  apply Qabs_Qle_condition in Hy as [Hy _].
  assert (inject_Z (Num.round_half_even y) + 1 <= inject_Z (Num.round_half_even x))
    as Hstep.
  { rewrite <- (inject_Z_plus _ 1). rewrite <- Zle_Qle. lia. }
  assert (x == y) as Heq by lra.
  apply NumFacts.round_half_even_comp in Heq. lia.
Qed.

Lemma round_2_mono (x y : Q) : x <= y → Num.round x 2 <= Num.round y 2.
Proof.
  intros Hxy. rewrite !NumFacts.round_value.
  change (inject_Z (Z.pos (Num.pow10 2))) with 100.
  assert (Num.round_half_even (x * 100) ≤ Num.round_half_even (y * 100))%Z as Hz.
  { apply round_half_even_mono. lra. }
  rewrite Zle_Qle in Hz. unfold Qdiv. change (/ 100) with (1 # 100). lra.
Qed.

Lemma round_2_integer (k : Z) : Num.round (inject_Z k) 2 == inject_Z k.
Proof.
  replace (Num.round (inject_Z k) 2) with (Num.round (k * 100 # 100) 2).
  - rewrite NumFacts.round_2_hundredths, Qred_correct.
    unfold Qeq, inject_Z; cbn. lia.
  - apply NumFacts.round_comp. unfold Qeq, inject_Z; cbn. lia.
Qed.

Lemma round_2_between (lo hi : Z) (x : Q) :
  inject_Z lo <= x → x <= inject_Z hi →
  inject_Z lo <= Num.round x 2 ∧ Num.round x 2 <= inject_Z hi.
Proof.
  intros Hlo Hhi. split.
  - rewrite <- (round_2_integer lo). by apply round_2_mono.
  - rewrite <- (round_2_integer hi). by apply round_2_mono.
Qed.

End NumOrder.

(** ** Mean between minimum and maximum *)

Section Ordered.

Local Open Scope Q_scope.

Lemma length_cons_Q {A} (x : A) (l : list A) :
  inject_Z (Z.of_nat (length (x :: l))) == inject_Z (Z.of_nat (length l)) + 1.
Proof.
  cbn [length]. rewrite Nat2Z.inj_succ. unfold Z.succ. by rewrite inject_Z_plus.
Qed.

Lemma sum_lower (lo : Q) (data : list Q) :
  (∀ y, y ∈ data → lo <= y) →
  lo * inject_Z (Z.of_nat (length data)) <= fold_right Qplus 0 data.
Proof.
  induction data as [| x data IH]; intros Hlo.
  - change (lo * 0 <= 0). lra.
  - rewrite length_cons_Q. cbn [fold_right].
    assert (lo <= x) by (apply Hlo; set_solver).
    assert (lo * inject_Z (Z.of_nat (length data)) <= fold_right Qplus 0 data)
      by (apply IH; intros y Hy; apply Hlo; set_solver).
    lra.
Qed.

Lemma sum_upper (hi : Q) (data : list Q) :
  (∀ y, y ∈ data → y <= hi) →
  fold_right Qplus 0 data <= hi * inject_Z (Z.of_nat (length data)).
Proof.
  induction data as [| x data IH]; intros Hhi.
  - change (0 <= hi * 0). lra.
  - rewrite length_cons_Q. cbn [fold_right].
    assert (x <= hi) by (apply Hhi; set_solver).
    assert (fold_right Qplus 0 data <= hi * inject_Z (Z.of_nat (length data)))
      by (apply IH; intros y Hy; apply Hhi; set_solver).
    lra.
Qed.

(** Every record built by the shared block is ordered, and its minimum is
    the rounding of an element of the data. *)
Lemma stats_record_ordered (data : list Q) (a lo hi : Q) :
  obind (mean data) (λ avg, stats_record avg data) = Ok (Stats a lo hi) →
  lo <= a ∧ a <= hi ∧ ∃ m, m ∈ data ∧ lo = Num.round m 2.
Proof.
  destruct data as [| x data]; [discriminate |].
  destruct (stats_record_spec x data)
    as (avg & lo' & hi' & -> & Havg & [Hlo_in Hlo] & [Hhi_in Hhi]).
  intros [= <- <- <-].
  set (n := inject_Z (Z.of_nat (length (x :: data)))) in *.
  assert (0 < n) as Hn.
  { unfold n. rewrite length_cons_Q.
    assert (0 <= inject_Z (Z.of_nat (length data))).
    { change 0 with (inject_Z 0). rewrite <- Zle_Qle. lia. }
    lra. }
  pose proof (sum_lower lo' (x :: data) Hlo) as Hsum_lo.
  pose proof (sum_upper hi' (x :: data) Hhi) as Hsum_hi.
  fold n in Hsum_lo, Hsum_hi. rewrite <- Havg in Hsum_lo, Hsum_hi.
  apply Qmult_le_r in Hsum_lo; [| exact Hn].
  apply Qmult_le_r in Hsum_hi; [| exact Hn].
  split; [by apply NumOrder.round_2_mono |].
  split; [by apply NumOrder.round_2_mono |].
  by exists lo'.
Qed.

Lemma differences_nonneg (latencies : list Q) (d : Q) :
  d ∈ differences latencies → 0 <= d.
Proof.
  unfold differences. intros Hd. apply list_elem_of_fmap in Hd as (i & -> & _).
  apply Qabs_nonneg.
Qed.

End Ordered.

(** ** DNS resolution *)

Section Dns.

Variable w : World.

Lemma resolve_each_spec (ds : list string) : ∀ (times : list Q) (self : NetworkTester),
  ∃ self',
    results self' = results self ∧
    resolve_each w ds times self
    = (match times_of (resolutions_from w (calls self) ds) with
       | Some more => Ok (times ++ more)
       | None => Raise CollaboratorError
       end, self').
Proof.
  induction ds as [| d ds IH]; intros times self.
  - exists self. split; [done |]. cbn. by rewrite app_nil_r.
  - cbn [resolve_each resolutions_from times_of]. unfold bind, timed_resolve.
    destruct (resolve w (calls self) d) as [elapsed |].
    + destruct (IH (times ++ [(elapsed * 1000)%Q]) (tick self)) as (self' & Hres & ->).
      exists self'. split; [done |]. cbn [tick calls].
      destruct (times_of _); cbn; [by rewrite <- app_assoc | done].
    + exists (tick self). by split.
Qed.

Lemma measure_dns_resolution_entry (self : NetworkTester) :
  (measure_dns_resolution w self).1 = Ok tt ∧
  results (measure_dns_resolution w self).2 !! "dns_resolution"
  = Some (if resolver_ok w (calls self) then
            match times_of (resolutions_from w (S (calls self)) domains) with
            | Some times => entry_of (obind (mean times) (λ avg, stats_record avg times))
            | None => None
            end
          else None).
Proof.
  unfold measure_dns_resolution, try_except, bind, new_resolver, lift.
  destruct (resolver_ok w (calls self)); cbn [is_Exception];
    [| cbn; by rewrite lookup_insert_eq].
  destruct (resolve_each_spec domains [] (tick self)) as (self' & Hres & ->).
  cbn [tick calls].
  destruct (times_of _) as [times |]; cbn [app is_Exception];
    [| cbn; by rewrite lookup_insert_eq].
  destruct (mean times) as [avg | e] eqn:Hmean; cbn [obind entry_of].
  - destruct (stats_record avg times) as [record | e] eqn:Hrecord; cbn.
    + by rewrite lookup_insert_eq.
    + rewrite (stats_record_catchable _ _ _ Hrecord). cbn. by rewrite lookup_insert_eq.
  - rewrite (mean_catchable _ _ Hmean). cbn. by rewrite lookup_insert_eq.
Qed.

End Dns.

(** X1.  Whatever the network answers, a record stored by [measure_latency],
    [measure_jitter] or [measure_dns_resolution] has its minimum at most its
    average and its average at most its maximum. *)
Theorem stored_statistics_are_ordered
    (w : World) (self : NetworkTester) (a lo hi : Q) :
  results (measure_latency w self).2 !! "latency" = Some (Some (Stats a lo hi)) ∨
  results (measure_jitter w self).2 !! "jitter" = Some (Some (Stats a lo hi)) ∨
  results (measure_dns_resolution w self).2 !! "dns_resolution"
  = Some (Some (Stats a lo hi)) →
  (lo <= a)%Q ∧ (a <= hi)%Q.
Proof.
  intros [H | [H | H]].
  - destruct (measure_latency_entry w self) as [_ Hentry]. rewrite Hentry in H.
    destruct (latencies_of _) as [[| x latencies] |]; [done | | done].
    cbn [latency_summary] in H. unfold entry_of in H.
    destruct (obind _ _) as [record |] eqn:Hrecord; [| done].
    injection H as ->.
    destruct (stats_record_ordered _ _ _ _ Hrecord) as (? & ? & _). done.
  - destruct (measure_jitter_entry w self) as [_ Hentry]. rewrite Hentry in H.
    destruct (latencies_of _) as [latencies |]; [| done].
    unfold jitter_summary in H. destruct (2 <=? length latencies)%nat; [| done].
    unfold entry_of in H.
    destruct (obind _ _) as [record |] eqn:Hrecord; [| done].
    injection H as ->.
    destruct (stats_record_ordered _ _ _ _ Hrecord) as (? & ? & _). done.
  - destruct (measure_dns_resolution_entry w self) as [_ Hentry]. rewrite Hentry in H.
    destruct (resolver_ok _ _); [| done].
    destruct (times_of _) as [times |]; [| done].
    unfold entry_of in H.
    destruct (obind _ _) as [record |] eqn:Hrecord; [| done].
    injection H as ->.
    destruct (stats_record_ordered _ _ _ _ Hrecord) as (? & ? & _). done.
Qed.

Lemma stored_statistics_are_ordered_witness :
  results (measure_latency
             (with_pings [PingReply (5 # 1000); PingNone; PingReply (1 # 1000);
                          PingReply (3 # 1000)])
             (init "8.8.8.8" 4)).2 !! "latency"
  = Some (Some (Stats 3 1 5)) ∧
  (1 <= 3)%Q ∧ (3 <= 5)%Q.
Proof.
  assert (results (measure_latency
             (with_pings [PingReply (5 # 1000); PingNone; PingReply (1 # 1000);
                          PingReply (3 # 1000)])
             (init "8.8.8.8" 4)).2 !! "latency"
          = Some (Some (Stats 3 1 5))) as Hentry by (vm_compute; reflexivity).
  split; [exact Hentry |].
  apply (stored_statistics_are_ordered _ _ 3%Q 1%Q 5%Q (or_introl Hentry)).
Defined.

(** ** Jitter of a steady link *)

Section Steady.

Local Open Scope Q_scope.

Lemma differences_replicate (x : Q) (n : nat) :
  differences (replicate (S (S n)) x) = replicate (S n) (Qabs (x - x)).
Proof.
  induction n as [| n IH]; [reflexivity |].
  change (replicate (S (S (S n))) x) with (x :: x :: replicate (S n) x).
  rewrite differences_cons2. change (x :: replicate (S n) x) with (replicate (S (S n)) x).
  by rewrite IH.
Qed.

Lemma sum_of_zeros (data : list Q) :
  (∀ y, y ∈ data → y == 0) → fold_right Qplus 0 data == 0.
Proof.
  induction data as [| x data IH]; intros Hzero; [reflexivity |].
  cbn [fold_right]. rewrite (Hzero x), IH; [reflexivity | | set_solver].
  intros y Hy. apply Hzero. set_solver.
Qed.

Lemma jitter_summary_steady (x : Q) (n : nat) :
  jitter_summary (replicate (S (S n)) x) = Ok (Stats 0 0 0).
Proof.
  unfold jitter_summary. rewrite length_replicate. cbn [Nat.leb].
  rewrite differences_replicate.
  assert (Qabs (x - x) == 0) as Hd.
  { assert (x - x == 0) as -> by ring. reflexivity. }
  change (replicate (S n) (Qabs (x - x)))
    with (Qabs (x - x) :: replicate n (Qabs (x - x))).
  destruct (stats_record_spec (Qabs (x - x)) (replicate n (Qabs (x - x))))
    as (avg & lo & hi & -> & Havg & [Hlo _] & [Hhi _]).
  change (Qabs (x - x) :: replicate n (Qabs (x - x)))
    with (replicate (S n) (Qabs (x - x))) in *.
  apply elem_of_replicate in Hlo as [-> _].
  apply elem_of_replicate in Hhi as [-> _].
  rewrite sum_of_zeros in Havg
    by (intros y Hy; by apply elem_of_replicate in Hy as [-> _]).
  assert (avg == 0) as Hzero.
  { rewrite length_replicate in Havg.
    assert (~ inject_Z (Z.of_nat (S n)) == 0) by (unfold Qeq; cbn; lia).
    apply (Qmult_integral_l (inject_Z (Z.of_nat (S n)))); [done |].
    by rewrite Qmult_comm. }
  rewrite (NumFacts.round_comp avg 0 2 Hzero).
  rewrite (NumFacts.round_comp (Qabs (x - x)) 0 2 Hd).
  reflexivity.
Qed.

End Steady.

Lemma jitter_record_bounds (w : World) (self : NetworkTester) (a lo hi : Q) :
  results (measure_jitter w self).2 !! "jitter" = Some (Some (Stats a lo hi)) →
  (0 <= lo)%Q ∧ (lo <= a)%Q ∧ (a <= hi)%Q.
Proof.
  intros H.
  destruct (measure_jitter_entry w self) as [_ Hentry]. rewrite Hentry in H.
  destruct (latencies_of _) as [latencies |]; [| done].
  unfold jitter_summary in H. destruct (2 <=? length latencies)%nat; [| done].
  unfold entry_of in H.
  destruct (obind _ _) as [record |] eqn:Hrecord; [| done].
  injection H as ->.
  destruct (stats_record_ordered _ _ _ _ Hrecord) as (Hlo & Hhi & m & Hm & ->).
  split; [| done].
  apply differences_nonneg in Hm.
  change 0%Q with (Num.round 0 2). by apply NumOrder.round_2_mono.
Qed.

(** X2.  The jitter record never holds a negative number: its minimum is at
    least zero (and so are its average and maximum); and when all successful
    samples of a measurement are the same latency, at least two of them, the
    record is average 0, minimum 0, maximum 0. *)
Theorem jitter_is_nonnegative_and_zero_when_steady
    (w : World) (self : NetworkTester) :
  (∀ a lo hi : Q,
      results (measure_jitter w self).2 !! "jitter" = Some (Some (Stats a lo hi)) →
      (0 <= lo)%Q ∧ (lo <= a)%Q ∧ (a <= hi)%Q) ∧
  (∀ (x : Q) (n : nat),
      latencies_of (upcoming_pings w self (Z.to_nat (sample_size self)))
      = Some (replicate (S (S n)) x) →
      results (measure_jitter w self).2 !! "jitter" = Some (Some (Stats 0 0 0))).
Proof.
  destruct (measure_jitter_entry w self) as [_ Hentry]. split.
  - intros a lo hi H.
    by apply (jitter_record_bounds w self).
  - intros x n Hsteady. rewrite Hentry, Hsteady, jitter_summary_steady. done.
Qed.

Lemma jitter_is_nonnegative_and_zero_when_steady_witness :
  results (measure_jitter
             (with_pings [PingReply (7 # 1000); PingNone; PingReply (7 # 1000);
                          PingReply (7 # 1000)])
             (init "8.8.8.8" 4)).2 !! "jitter"
  = Some (Some (Stats 0 0 0)).
Proof.
  destruct (jitter_is_nonnegative_and_zero_when_steady
              (with_pings [PingReply (7 # 1000); PingNone; PingReply (7 # 1000);
                           PingReply (7 # 1000)])
              (init "8.8.8.8" 4)) as [_ Hsteady].
  apply (Hsteady ((7 # 1000) * 1000)%Q 1%nat). reflexivity.
Defined.

(** ** DNS: all three names or nothing *)

Lemma times_of_error (answers : list resolve_outcome) :
  times_of answers = None ↔ ResolveError ∈ answers.
Proof.
  induction answers as [| [elapsed |] answers IH]; cbn [times_of].
  - split; [done | intros H; by apply elem_of_nil in H].
  - destruct (times_of answers) as [times |]; cbn.
    + split; [done |]. intros H. apply elem_of_cons in H as [H | H]; [done |].
      by apply IH in H.
    + split; [| done]. intros _. apply elem_of_cons. right. by apply IH.
  - split; [| done]. intros _. apply elem_of_cons. by left.
Qed.

Lemma times_of_length (answers : list resolve_outcome) (times : list Q) :
  times_of answers = Some times → length times = length answers.
Proof.
  revert times; induction answers as [| [elapsed |] answers IH]; intros times;
    cbn [times_of].
  - by intros [= <-].
  - destruct (times_of answers) as [rest |]; cbn; [| done].
    intros [= <-]. cbn. f_equal. by apply IH.
  - done.
Qed.

(** X3.  [measure_dns_resolution] never raises, and stores [None] exactly
    when the resolver cannot be built or one of the three queries raises: a
    single failing name voids the metric.  When all three resolve, the entry
    is the record of the rounded mean, least and greatest of the three times
    in milliseconds. *)
Theorem dns_is_all_or_nothing (w : World) (self : NetworkTester) :
  (measure_dns_resolution w self).1 = Ok tt ∧
  (results (measure_dns_resolution w self).2 !! "dns_resolution" = Some None
   ↔ resolver_ok w (calls self) = false
     ∨ ResolveError ∈ resolutions_from w (S (calls self)) domains) ∧
  (∀ t1 t2 t3 : Q,
      resolver_ok w (calls self) = true →
      resolutions_from w (S (calls self)) domains
      = [Resolved t1; Resolved t2; Resolved t3] →
      ∃ avg lo hi : Q,
        results (measure_dns_resolution w self).2 !! "dns_resolution"
        = Some (Some (Stats (Num.round avg 2) (Num.round lo 2) (Num.round hi 2))) ∧
        (avg * 3 == t1 * 1000 + t2 * 1000 + t3 * 1000)%Q ∧
        (lo ∈ [t1 * 1000; t2 * 1000; t3 * 1000]%Q ∧
         ∀ y, y ∈ [t1 * 1000; t2 * 1000; t3 * 1000]%Q → (lo <= y)%Q) ∧
        (hi ∈ [t1 * 1000; t2 * 1000; t3 * 1000]%Q ∧
         ∀ y, y ∈ [t1 * 1000; t2 * 1000; t3 * 1000]%Q → (y <= hi)%Q)).
Proof.
  destruct (measure_dns_resolution_entry w self) as [Hok Hentry].
  split; [exact Hok |]. rewrite Hentry. split.
  - destruct (resolver_ok w (calls self)); [| split; [by left | done]].
    destruct (times_of _) as [times |] eqn:Htimes.
    + pose proof (times_of_length _ _ Htimes) as Hlen.
      destruct times as [| x times]; [discriminate Hlen |].
      destruct (stats_record_spec x times) as (avg & lo & hi & -> & _).
      split; [done |]. intros [H | H]; [done |].
      apply times_of_error in H. congruence.
    + split; [| done]. intros _. right. by apply times_of_error.
  - intros t1 t2 t3 -> ->. cbn [times_of fmap option_fmap option_map].
    destruct (stats_record_spec (t1 * 1000)%Q [(t2 * 1000)%Q; (t3 * 1000)%Q])
      as (avg & lo & hi & -> & Havg & Hlo & Hhi).
    exists avg, lo, hi. split; [done |]. split; [| done].
    rewrite Havg. cbn. ring.
Qed.

Lemma dns_is_all_or_nothing_witness :
  ∃ avg lo hi : Q,
    results (measure_dns_resolution resolving_world (init "8.8.8.8" 10)).2
      !! "dns_resolution"
    = Some (Some (Stats (Num.round avg 2) (Num.round lo 2) (Num.round hi 2))) ∧
    (avg * 3 == (1 # 1000) * 1000 + (2 # 1000) * 1000 + (3 # 1000) * 1000)%Q.
Proof.
  destruct (dns_is_all_or_nothing resolving_world (init "8.8.8.8" 10))
    as (_ & _ & Hall).
  destruct (Hall (inject_Z 1 / 1000) (inject_Z 2 / 1000) (inject_Z 3 / 1000))%Q
    as (avg & lo & hi & Hentry & Havg & _); [reflexivity | reflexivity |].
  exists avg, lo, hi. split; [exact Hentry |]. rewrite Havg. reflexivity.
Defined.

(** ** Packet loss *)

Lemma latencies_of_replies (pings : list ping_outcome) (latencies : list Q) :
  latencies_of pings = Some latencies →
  length latencies = length (List.filter is_reply pings) ∧
  (length latencies ≤ length pings)%nat.
Proof.
  revert latencies; induction pings as [| [rtt | |] pings IH]; intros latencies;
    cbn [latencies_of List.filter is_reply].
  - intros [= <-]. done.
  - destruct (latencies_of pings) as [rest |]; cbn; [| done].
    intros [= <-]. destruct (IH rest eq_refl). cbn. lia.
  - intros H. destruct (IH latencies H). cbn. lia.
  - done.
Qed.

Lemma length_upcoming_pings (w : World) (self : NetworkTester) (n : nat) :
  length (upcoming_pings w self n) = n.
Proof. unfold upcoming_pings. by rewrite length_map, length_seq. Qed.

Lemma loss_ratio_bounds (sent received : Z) :
  0 < sent → 0 ≤ received ≤ sent →
  (0 <= inject_Z (sent - received) / inject_Z sent * 100)%Q ∧
  (inject_Z (sent - received) / inject_Z sent * 100 <= 100)%Q.
Proof.
  intros Hsent Hreceived.
  assert (0 < inject_Z sent)%Q as Hs.
  { change 0%Q with (inject_Z 0). rewrite <- Zlt_Qlt. lia. }
  assert (0 <= inject_Z (sent - received))%Q as Hlost.
  { change 0%Q with (inject_Z 0). rewrite <- Zle_Qle. lia. }
  assert (inject_Z (sent - received) <= inject_Z sent)%Q as Hle.
  { rewrite <- Zle_Qle. lia. }
  assert (0 <= inject_Z (sent - received) / inject_Z sent)%Q as H0.
  { apply Qle_shift_div_l; [exact Hs | lra]. }
  assert (inject_Z (sent - received) / inject_Z sent <= 1)%Q as H1.
  { apply Qle_shift_div_r; [exact Hs | lra]. }
  split; lra.
Qed.

(** X4.  A record stored by [measure_packet_loss] reports the sample size as
    packets sent, which is never zero, and the number of answered pings as
    packets received.  For a positive sample size the received count lies
    between zero and the sent count and the loss rate between 0 and 100; for
    a negative one nothing is received and the rate is 100. *)
Theorem packet_loss_record_bounds
    (w : World) (self : NetworkTester) (rate : Q) (sent received : Z) :
  results (measure_packet_loss w self).2 !! "packet_loss"
  = Some (Some (PacketLoss rate sent received)) →
  sent = sample_size self ∧ sent ≠ 0 ∧
  received
  = Z.of_nat (length (List.filter is_reply
                        (upcoming_pings w self (Z.to_nat (sample_size self))))) ∧
  rate = Num.round (inject_Z (sent - received) / inject_Z sent * 100) 2 ∧
  (0 < sent → 0 ≤ received ≤ sent ∧ (0 <= rate)%Q ∧ (rate <= 100)%Q) ∧
  (sent < 0 → received = 0 ∧ rate = 100%Q).
Proof.
  intros H.
  destruct (measure_packet_loss_entry w self) as [_ Hentry]. rewrite Hentry in H.
  destruct (latencies_of _) as [latencies |] eqn:Hlat; [| done].
  cbn zeta in H. destruct (Z.eqb_spec (sample_size self) 0) as [| Hsent]; [done |].
  injection H as <- <- <-.
  destruct (latencies_of_replies _ _ Hlat) as [Hreplies Hlen].
  rewrite length_upcoming_pings in Hlen.
  split; [done |]. split; [done |]. split; [by rewrite Hreplies |].
  split; [done |]. split.
  - intros Hpos. assert (0 ≤ Z.of_nat (length latencies) ≤ sample_size self) by lia.
    split; [done |].
    apply (NumOrder.round_2_between 0 100); by apply loss_ratio_bounds.
  - intros Hneg. assert (length latencies = 0%nat) as Hnone.
    { destruct (sample_size self); cbn in Hlen; lia. }
    rewrite Hnone. split; [done |].
    apply length_zero_iff_nil in Hnone. subst latencies. by apply full_loss_rate.
Qed.

Lemma packet_loss_record_bounds_witness :
  results (measure_packet_loss
             (with_pings [PingReply (1 # 100); PingNone; PingReply (1 # 100)])
             (init "8.8.8.8" 3)).2 !! "packet_loss"
  = Some (Some (PacketLoss (3333 # 100) 3 2)) ∧
  0 ≤ 2 ≤ 3 ∧ (0 <= 3333 # 100)%Q ∧ (3333 # 100 <= 100)%Q.
Proof.
  assert (results (measure_packet_loss
             (with_pings [PingReply (1 # 100); PingNone; PingReply (1 # 100)])
             (init "8.8.8.8" 3)).2 !! "packet_loss"
          = Some (Some (PacketLoss (3333 # 100) 3 2))) as Hentry
    by (vm_compute; reflexivity).
  split; [exact Hentry |].
  destruct (packet_loss_record_bounds _ _ _ _ _ Hentry) as (_ & _ & _ & _ & Hpos & _).
  apply Hpos. lia.
Defined.

(** ** How many pings a measurement sends *)

Section Accounting.

Variable w : World.

Lemma calls_set_result key value self :
  calls (set_result key value self).2 = calls self.
Proof. reflexivity. Qed.

Lemma sample_latencies_calls (n : nat) : ∀ (latencies : list Q) (self : NetworkTester),
  calls (sample_latencies w n latencies self).2
  = (calls self + consumed (upcoming_pings w self n))%nat.
Proof.
  induction n as [| n IH]; intros latencies self.
  - cbn. lia.
  - rewrite upcoming_pings_S. cbn [sample_latencies]. unfold bind, call_ping.
    destruct (ping w (calls self)) as [rtt | |]; cbn [consumed].
    + rewrite IH. cbn [tick calls]. lia.
    + rewrite IH. cbn [tick calls]. lia.
    + cbn. lia.
Qed.

Lemma count_replies_calls (n : nat) : ∀ (received : Z) (self : NetworkTester),
  calls (count_replies w n received self).2
  = (calls self + consumed (upcoming_pings w self n))%nat.
Proof.
  induction n as [| n IH]; intros received self.
  - cbn. lia.
  - rewrite upcoming_pings_S. cbn [count_replies]. unfold bind, call_ping.
    destruct (ping w (calls self)) as [rtt | |]; cbn [consumed].
    + rewrite IH. cbn [tick calls]. lia.
    + rewrite IH. cbn [tick calls]. lia.
    + cbn. lia.
Qed.

Lemma measure_latency_calls self :
  calls (measure_latency w self).2
  = (calls self
     + consumed (upcoming_pings w self (Z.to_nat (sample_size self))))%nat.
Proof.
  unfold measure_latency, try_except, bind, get_sample_size, lift.
  rewrite <- (sample_latencies_calls _ [] self).
  destruct (sample_latencies w _ [] self) as [[latencies | e] self1]; cbn [snd].
  - destruct (latency_summary latencies) as [record | e]; [done |].
    by destruct (is_Exception e).
  - by destruct (is_Exception e).
Qed.

Lemma measure_jitter_calls self :
  calls (measure_jitter w self).2
  = (calls self
     + consumed (upcoming_pings w self (Z.to_nat (sample_size self))))%nat.
Proof.
  unfold measure_jitter, try_except, bind, get_sample_size, lift.
  rewrite <- (sample_latencies_calls _ [] self).
  destruct (sample_latencies w _ [] self) as [[latencies | e] self1]; cbn [snd].
  - destruct (jitter_summary latencies) as [record | e]; [done |].
    by destruct (is_Exception e).
  - by destruct (is_Exception e).
Qed.

Lemma measure_packet_loss_calls self :
  calls (measure_packet_loss w self).2
  = (calls self
     + consumed (upcoming_pings w self (Z.to_nat (sample_size self))))%nat.
Proof.
  unfold measure_packet_loss, try_except, bind, get_sample_size, lift.
  rewrite <- (count_replies_calls _ 0 self).
  destruct (count_replies w _ 0 self) as [[received | e] self1]; cbn [snd].
  - destruct (truediv _ _) as [ratio | e]; [done |].
    by destruct (is_Exception e).
  - by destruct (is_Exception e).
Qed.

End Accounting.

Lemma consumed_le (pings : list ping_outcome) : (consumed pings ≤ length pings)%nat.
Proof. induction pings as [| [rtt | |] pings IH]; cbn; lia. Qed.

Lemma consumed_all (pings : list ping_outcome) :
  existsb is_error pings = false → consumed pings = length pings.
Proof.
  induction pings as [| [rtt | |] pings IH]; cbn; [done | | | done];
    intros H; f_equal; by apply IH.
Qed.

Lemma latencies_of_error (pings : list ping_outcome) :
  existsb is_error pings = true → latencies_of pings = None.
Proof.
  induction pings as [| [rtt | |] pings IH]; cbn; [done | | | done]; intros H.
  - by rewrite IH.
  - by apply IH.
Qed.

(** X5.  Each of the three sampling methods calls [ping] once per sample as
    long as no call raises: exactly [sample_size] times (no time for a
    negative size).  A call that raises ends the loop there, and the method
    stores [None] whatever replies it had already received. *)
Theorem pings_sent_by_a_measurement (w : World) (self : NetworkTester) :
  (calls (measure_latency w self).2
   = (calls self + consumed (upcoming_pings w self (Z.to_nat (sample_size self))))%nat ∧
   calls (measure_packet_loss w self).2
   = (calls self + consumed (upcoming_pings w self (Z.to_nat (sample_size self))))%nat ∧
   calls (measure_jitter w self).2
   = (calls self + consumed (upcoming_pings w self (Z.to_nat (sample_size self))))%nat) ∧
  (consumed (upcoming_pings w self (Z.to_nat (sample_size self)))
   ≤ Z.to_nat (sample_size self))%nat ∧
  (existsb is_error (upcoming_pings w self (Z.to_nat (sample_size self))) = false →
   consumed (upcoming_pings w self (Z.to_nat (sample_size self)))
   = Z.to_nat (sample_size self)) ∧
  (existsb is_error (upcoming_pings w self (Z.to_nat (sample_size self))) = true →
   results (measure_latency w self).2 !! "latency" = Some None ∧
   results (measure_packet_loss w self).2 !! "packet_loss" = Some None ∧
   results (measure_jitter w self).2 !! "jitter" = Some None).
Proof.
  split; [| split; [| split]].
  - split; [apply measure_latency_calls |].
    split; [apply measure_packet_loss_calls | apply measure_jitter_calls].
  - rewrite <- (length_upcoming_pings w self (Z.to_nat (sample_size self))) at 2.
    apply consumed_le.
  - intros Hnone.
    rewrite <- (length_upcoming_pings w self (Z.to_nat (sample_size self))) at 2.
    by apply consumed_all.
  - intros Herror. apply latencies_of_error in Herror.
    destruct (measure_latency_entry w self) as [_ ->].
    destruct (measure_packet_loss_entry w self) as [_ ->].
    destruct (measure_jitter_entry w self) as [_ ->].
    by rewrite Herror.
Qed.

Lemma pings_sent_by_a_measurement_witness :
  calls (measure_latency
           (with_pings [PingReply (1 # 100); PingError; PingReply (1 # 100)])
           (init "8.8.8.8" 3)).2 = 2%nat ∧
  results (measure_latency
             (with_pings [PingReply (1 # 100); PingError; PingReply (1 # 100)])
             (init "8.8.8.8" 3)).2 !! "latency" = Some None ∧
  calls (measure_latency (with_pings [PingReply (1 # 100); PingNone])
           (init "8.8.8.8" 5)).2 = 5%nat.
Proof.
  destruct (pings_sent_by_a_measurement
              (with_pings [PingReply (1 # 100); PingError; PingReply (1 # 100)])
              (init "8.8.8.8" 3)) as ((Hcalls & _) & _ & _ & Herror).
  destruct (pings_sent_by_a_measurement
              (with_pings [PingReply (1 # 100); PingNone])
              (init "8.8.8.8" 5)) as ((Hcalls' & _) & _ & Hall & _).
  split; [exact Hcalls |]. split; [apply Herror; reflexivity |].
  rewrite Hcalls', Hall; reflexivity.
Defined.

(** X6.  With a negative sample size no ping is sent; [measure_latency] and
    [measure_jitter] store [None], and [measure_packet_loss] stores a record
    of 100 percent loss whose packets-sent field is the negative size. *)
Theorem negative_sample_size (w : World) (self : NetworkTester) :
  sample_size self < 0 →
  (calls (measure_latency w self).2 = calls self ∧
   results (measure_latency w self).2 !! "latency" = Some None) ∧
  (calls (measure_jitter w self).2 = calls self ∧
   results (measure_jitter w self).2 !! "jitter" = Some None) ∧
  (calls (measure_packet_loss w self).2 = calls self ∧
   results (measure_packet_loss w self).2 !! "packet_loss"
   = Some (Some (PacketLoss 100 (sample_size self) 0))).
Proof.
  intros Hneg.
  assert (Z.to_nat (sample_size self) = 0%nat) as Hnone by lia.
  pose proof (measure_latency_calls w self) as Hl.
  pose proof (measure_jitter_calls w self) as Hj.
  pose proof (measure_packet_loss_calls w self) as Hp.
  destruct (measure_latency_entry w self) as [_ Hle].
  destruct (measure_jitter_entry w self) as [_ Hje].
  destruct (measure_packet_loss_entry w self) as [_ Hpe].
  rewrite Hnone in *. cbn in Hl, Hj, Hp, Hle, Hje.
  rewrite Nat.add_0_r in Hl, Hj, Hp.
  repeat split; try done.
  rewrite Hpe. cbn [upcoming_pings seq map latencies_of]. cbn zeta.
  destruct (Z.eqb_spec (sample_size self) 0); [lia |].
  by rewrite full_loss_rate.
Qed.

Lemma negative_sample_size_witness :
  sample_size (init "8.8.8.8" (-1)) < 0 ∧
  results (measure_packet_loss (with_pings [PingReply (1 # 100)])
             (init "8.8.8.8" (-1))).2 !! "packet_loss"
  = Some (Some (PacketLoss 100 (-1) 0)).
Proof.
  split; [reflexivity |].
  destruct (negative_sample_size (with_pings [PingReply (1 # 100)])
              (init "8.8.8.8" (-1))) as (_ & _ & _ & Hentry); [reflexivity |].
  exact Hentry.
Defined.

(** ** One method, one key *)

(** X7.  Every method of the dispatch table returns normally and leaves the
    sample size and every report entry other than its own as it found them:
    a failing probe cannot void or change another metric. *)
Theorem method_touches_only_its_key
    (w : World) (name : string) (method : M unit) (self : NetworkTester)
    (key : string) :
  getitem (metric_methods w) name = Ok method →
  key ≠ report_key name →
  (method self).1 = Ok tt ∧
  results (method self).2 !! key = results self !! key ∧
  is_Some (results (method self).2 !! report_key name) ∧
  sample_size (method self).2 = sample_size self.
Proof.
  intros Hget Hkey.
  assert (name ∈ choices) as Hname.
  { revert Hget. unfold metric_methods, choices. cbn [getitem].
    repeat match goal with
           | |- context [String.eqb ?a name] =>
               destruct (String.eqb_spec a name) as [<- | _]; [intros _; set_solver |]
           end.
    discriminate. }
  destruct (getitem_choices w name Hname) as (method' & Hget' & Hstores).
  assert (method' = method) as -> by congruence.
  destruct (Hstores self) as (value & self' & -> & Hres & Hsize). cbn [fst snd].
  rewrite Hres, lookup_insert_ne, lookup_insert_eq by done. eauto.
Qed.

Lemma method_touches_only_its_key_witness :
  results (measure_dns_resolution quiet_world
             (measure_packet_loss quiet_world (init "8.8.8.8" 5)).2).2 !! "packet_loss"
  = Some (Some (PacketLoss 100 5 0)).
Proof.
  destruct (method_touches_only_its_key quiet_world "dns"
              (measure_dns_resolution quiet_world)
              (measure_packet_loss quiet_world (init "8.8.8.8" 5)).2 "packet_loss")
    as (_ & Hsame & _); [reflexivity | done |].
  rewrite Hsame. vm_compute. reflexivity.
Defined.

(** ** What the MTU search can return *)

Section SearchShape.

Variable p : Path.

Local Open Scope Q_scope.

(** Reading a returned size backwards: the candidates passed over were all
    silent and probed in time, and the search stopped on a reply or at the
    bottom. *)
Lemma mtu_descent_returns (fuel : nat) :
  ∀ (mtu_size : Z) (elapsed : Q) (size : Z) (finished : Q),
    mtu_descent p fuel mtu_size elapsed = Some (Ok size, finished) →
    ∃ k : nat,
      size = (mtu_size - 10 * Z.of_nat k)%Z ∧
      (∀ i, (i < k)%nat →
            sr1 p (mtu_size - 10 * Z.of_nat i) = Sr1None ∧
            (0 < mtu_size - 10 * Z.of_nat i)%Z ∧
            clock_after p mtu_size elapsed i <= timeout_seconds) ∧
      (((0 < size)%Z ∧ sr1 p size = Sr1Reply ∧
        clock_after p mtu_size elapsed k <= timeout_seconds ∧
        finished = clock_after p mtu_size elapsed (S k))
       ∨ ((size ≤ 0)%Z ∧ finished = clock_after p mtu_size elapsed k)).
Proof.
  induction fuel as [| fuel IH]; intros mtu_size elapsed size finished;
    cbn [mtu_descent]; destruct (Z.gtb_spec mtu_size 0) as [Hpos | Hnonpos].
  - discriminate.
  - intros [= <- <-]. exists 0%nat. split; [lia |]. split; [intros i Hi; lia |].
    right. by split.
  - destruct (Num.Qltb timeout_seconds elapsed) eqn:Hlate; [discriminate |].
    apply NumFacts.Qltb_ge in Hlate.
    destruct (sr1 p mtu_size) eqn:Hsr1; [| | discriminate].
    + intros [= <- <-]. exists 0%nat. split; [lia |]. split; [intros i Hi; lia |].
      left. by repeat split.
    + intros Hrun. apply IH in Hrun as (k & -> & Hsilent & Hend).
      exists (S k). split; [lia |]. split.
      * intros [| i] Hi.
        -- replace (mtu_size - 10 * Z.of_nat 0)%Z with mtu_size by lia.
           by repeat split.
        -- destruct (Hsilent i ltac:(lia)) as (Hn & Hp & Hc).
           replace (mtu_size - 10 * Z.of_nat (S i))%Z
             with (mtu_size - 10 - 10 * Z.of_nat i)%Z by lia.
           by repeat split.
      * replace (mtu_size - 10 * Z.of_nat (S k))%Z
          with (mtu_size - 10 - 10 * Z.of_nat k)%Z by lia.
        exact Hend.
  - intros [= <- <-]. exists 0%nat. split; [lia |]. split; [intros i Hi; lia |].
    right. by split.
Qed.

(** The clock after [k] lost probes is at least [k] times the least cost of
    a lost probe. *)
Lemma clock_after_lower (least : Q) (k : nat) : ∀ (mtu_size : Z) (elapsed : Q),
  (∀ i, (i < k)%nat → least <= sr1_cost p (mtu_size - 10 * Z.of_nat i)) →
  elapsed + inject_Z (Z.of_nat k) * least <= clock_after p mtu_size elapsed k.
Proof.
  induction k as [| k IH]; intros mtu_size elapsed Hcost.
  - cbn [clock_after]. change (inject_Z (Z.of_nat 0)) with 0. lra.
  - cbn [clock_after].
    specialize (IH (mtu_size - 10)%Z (elapsed + sr1_cost p mtu_size)).
    assert (least <= sr1_cost p mtu_size) as H0.
    { specialize (Hcost 0%nat ltac:(lia)).
      by replace (mtu_size - 10 * Z.of_nat 0)%Z with mtu_size in Hcost by lia. }
    assert (inject_Z (Z.of_nat (S k)) == inject_Z (Z.of_nat k) + 1) as ->.
    { rewrite Nat2Z.inj_succ. unfold Z.succ. by rewrite inject_Z_plus. }
    apply (Qle_trans _ (elapsed + sr1_cost p mtu_size + inject_Z (Z.of_nat k) * least));
      [lra | apply IH].
    intros i Hi. specialize (Hcost (S i) ltac:(lia)).
    by replace (mtu_size - 10 - 10 * Z.of_nat i)%Z
      with (mtu_size - 10 * Z.of_nat (S i))%Z by lia.
Qed.

(** Once under way the search is left at most one probe after the tenth
    second. *)
Lemma mtu_descent_deadline (longest : Q) (fuel : nat) :
  (∀ size, sr1_cost p size <= longest) →
  ∀ (mtu_size : Z) (elapsed : Q) (r : outcome Z) (finished : Q),
    elapsed <= timeout_seconds + longest →
    mtu_descent p fuel mtu_size elapsed = Some (r, finished) →
    finished <= timeout_seconds + longest.
Proof.
  intros Hcost.
  induction fuel as [| fuel IH]; intros mtu_size elapsed r finished Helapsed;
    cbn [mtu_descent]; destruct (mtu_size >? 0)%Z.
  - discriminate.
  - by intros [= _ <-].
  - destruct (Num.Qltb timeout_seconds elapsed) eqn:Hlate; [by intros [= _ <-] |].
    apply NumFacts.Qltb_ge in Hlate.
    assert (elapsed + sr1_cost p mtu_size <= timeout_seconds + longest)
      by (specialize (Hcost mtu_size); lra).
    destruct (sr1 p mtu_size).
    + by intros [= _ <-].
    + by apply IH.
    + by intros [= _ <-].
  - by intros [= _ <-].
Qed.

End SearchShape.

(** X10.  A size returned by the MTU search is one of 1500, 1490, ..., 10, 0,
    on every path and whatever the timing.  A positive size got a reply, and
    every larger candidate was probed and stayed unanswered; 0 comes back
    only after all 150 candidates stayed unanswered. *)
Theorem mtu_search_result_shape (p : Path) (size : Z) :
  (measure_mtu_with_timeout p).1 = Ok size →
  ∃ k : nat,
    (k ≤ 150)%nat ∧ size = candidate k ∧
    (∀ i, (i < k)%nat → sr1 p (candidate i) = Sr1None) ∧
    (0 < size → sr1 p size = Sr1Reply) ∧
    (size ≤ 0 → k = 150%nat).
Proof.
  intros Hsize.
  pose proof (measure_mtu_with_timeout_runs p) as Hrun.
  destruct (measure_mtu_with_timeout p) as [r finished]. cbn in Hsize. subst r.
  apply mtu_descent_returns in Hrun as (k & -> & Hsilent & Hend).
  assert (k ≤ 150)%nat as Hk.
  { destruct k as [| k]; [lia |].
    destruct (Hsilent k ltac:(lia)) as (_ & Hpos & _). lia. }
  exists k. split; [exact Hk |]. split; [reflexivity |]. split; [| split].
  - intros i Hi. by destruct (Hsilent i Hi).
  - intros Hpos. destruct Hend as [(_ & Hreply & _) | [Hle _]]; [done | lia].
  - intros Hle. destruct k as [| k]; [lia |].
    destruct (Hsilent k ltac:(lia)) as (_ & Hpos & _). lia.
Qed.

Lemma mtu_search_result_shape_witness :
  (measure_mtu_with_timeout late_reply_path).1 = Ok 1410 ∧
  ∃ k : nat, (k ≤ 150)%nat ∧ 1410 = candidate k ∧ sr1 late_reply_path 1410 = Sr1Reply.
Proof.
  assert ((measure_mtu_with_timeout late_reply_path).1 = Ok 1410) as Hsize
    by (vm_compute; reflexivity).
  split; [exact Hsize |].
  destruct (mtu_search_result_shape late_reply_path 1410 Hsize)
    as (k & Hk & Hcand & _ & Hreply & _).
  exists k. split; [exact Hk |]. split; [exact Hcand |]. apply Hreply. lia.
Defined.

(** X11.  If no iteration of the search takes longer than [longest] seconds,
    the search is over within ten seconds plus [longest], whether it returns
    or raises: it never starts a probe after the tenth second. *)
Theorem mtu_search_ends_in_time (p : Path) (longest : Q) :
  (0 <= longest)%Q →
  (∀ size, (sr1_cost p size <= longest)%Q) →
  ((measure_mtu_with_timeout p).2 <= timeout_seconds + longest)%Q.
Proof.
  intros Hlongest Hcost.
  pose proof (measure_mtu_with_timeout_runs p) as Hrun.
  destruct (measure_mtu_with_timeout p) as [r finished]. cbn [snd].
  apply (mtu_descent_deadline p longest 150 Hcost 1500 0%Q r finished); [| exact Hrun].
  unfold timeout_seconds. lra.
Qed.

Lemma mtu_search_ends_in_time_witness :
  ((measure_mtu_with_timeout slow_path_1000).2 <= timeout_seconds + 1)%Q.
Proof.
  apply (mtu_search_ends_in_time slow_path_1000 1); [lra |].
  intros size. cbn. lra.
Defined.

(** X12.  When every unanswered probe costs at least one second (the
    [timeout=1] given to [sr1]), the search tries at most the eleven sizes
    from 1500 down to 1400: a size it returns is at least 1400, and it never
    returns 0. *)
Theorem mtu_search_reach (p : Path) (size : Z) :
  (∀ s, sr1 p s = Sr1None → (1 <= sr1_cost p s)%Q) →
  (measure_mtu_with_timeout p).1 = Ok size →
  1400 ≤ size ∧ sr1 p size = Sr1Reply.
Proof.
  intros Hcost Hsize.
  pose proof (measure_mtu_with_timeout_runs p) as Hrun.
  destruct (measure_mtu_with_timeout p) as [r finished]. cbn in Hsize. subst r.
  apply mtu_descent_returns in Hrun as (k & -> & Hsilent & Hend).
  assert (∀ j, (j ≤ k)%nat →
          (0 + inject_Z (Z.of_nat j) * 1 <= clock_after p 1500 0 j)%Q) as Hclock.
  { intros j Hj. apply clock_after_lower. intros i Hi.
    apply Hcost. by destruct (Hsilent i ltac:(lia)). }
  assert (∀ j, (j ≤ k)%nat → (clock_after p 1500 0 j <= timeout_seconds)%Q →
               (j ≤ 10)%nat) as Hfew.
  { intros j Hj Hin. specialize (Hclock j Hj).
    assert (inject_Z (Z.of_nat j) <= inject_Z 10)%Q as Hle
      by (unfold timeout_seconds in Hin; change (inject_Z 10) with 10%Q; lra).
    rewrite <- Zle_Qle in Hle. lia. }
  destruct Hend as [(Hpos & Hreply & Hin & _) | [Hle _]].
  - split; [| exact Hreply]. specialize (Hfew k (le_n k) Hin). lia.
  - exfalso. destruct k as [| k]; [lia |].
    destruct (Hsilent k ltac:(lia)) as (_ & Hpos & Hin).
    specialize (Hfew k ltac:(lia) Hin). lia.
Qed.

Lemma mtu_search_reach_witness :
  (measure_mtu_with_timeout late_reply_path).1 = Ok 1410 ∧ 1400 ≤ 1410.
Proof.
  assert ((measure_mtu_with_timeout late_reply_path).1 = Ok 1410) as Hsize
    by (vm_compute; reflexivity).
  split; [exact Hsize |].
  apply (mtu_search_reach late_reply_path 1410); [| exact Hsize].
  intros s. cbn. destruct (s <=? 1410); [discriminate | intros _; lra].
Defined.

(** ** The MTU entry *)

Lemma mtu_descent_catchable (p : Path) (fuel : nat) :
  ∀ (mtu_size : Z) (elapsed finished : Q) (e : exn),
    mtu_descent p fuel mtu_size elapsed = Some (Raise e, finished) →
    is_Exception e = true.
Proof.
  induction fuel as [| fuel IH]; intros mtu_size elapsed finished e;
    cbn [mtu_descent]; destruct (mtu_size >? 0); try discriminate.
  destruct (Num.Qltb timeout_seconds elapsed); [by intros [= <- _] |].
  destruct (sr1 p mtu_size); [discriminate | apply IH | by intros [= <- _]].
Qed.

Lemma measure_mtu_entry (w : World) (self : NetworkTester) :
  (measure_mtu w self).1 = Ok tt ∧
  results (measure_mtu w self).2 !! "mtu"
  = Some (match measure_mtu_with_timeout (path w (calls self)) with
          | (Ok size, finished) =>
              if Num.Qltb 10 finished then None else Some (Mtu size)
          | (Raise _, _) => None
          end).
Proof.
  pose proof (measure_mtu_with_timeout_runs (path w (calls self))) as Hrun.
  assert (∃ value,
            _measure_mtu_thread (path w (calls self))
            = (Some value, (measure_mtu_with_timeout (path w (calls self))).2) ∧
            value = match (measure_mtu_with_timeout (path w (calls self))).1 with
                    | Ok size => Some (Mtu size)
                    | Raise _ => None
                    end) as (value & Hthread & Hvalue).
  { unfold _measure_mtu_thread.
    destruct (measure_mtu_with_timeout (path w (calls self))) as [[size | e] finished].
    - by eexists.
    - rewrite (mtu_descent_catchable _ _ _ _ _ _ Hrun). by eexists. }
  destruct (measure_mtu_with_timeout (path w (calls self))) as [r finished].
  cbn [fst snd] in *.
  destruct (Num.Qltb 10 finished) eqn:Hlate.
  - apply NumFacts.Qltb_lt in Hlate.
    destruct (measure_mtu_deadline w self _ _ Hthread Hlate) as (Hok & -> & _).
    split; [exact Hok |]. rewrite lookup_insert_eq. by destruct r.
  - apply NumFacts.Qltb_ge in Hlate.
    destruct (measure_mtu_joined w self _ _ Hthread Hlate) as (Hok & -> & _).
    split; [exact Hok |]. rewrite lookup_insert_eq, Hvalue. by destruct r.
Qed.

(** X13.  After [measure_mtu] the report holds a size under ["mtu"] exactly
    when the search returned that size within ten seconds; in every other
    case it holds [None].  The entry never depends on what an earlier run had
    stored there. *)
Theorem mtu_entry_is_an_in_time_result (w : World) (self : NetworkTester) :
  (measure_mtu w self).1 = Ok tt ∧
  (∀ size : Z,
      results (measure_mtu w self).2 !! "mtu" = Some (Some (Mtu size))
      ↔ (measure_mtu_with_timeout (path w (calls self))).1 = Ok size ∧
        ((measure_mtu_with_timeout (path w (calls self))).2 <= 10)%Q) ∧
  (results (measure_mtu w self).2 !! "mtu" = Some None
   ∨ ∃ size, results (measure_mtu w self).2 !! "mtu" = Some (Some (Mtu size))).
Proof.
  destruct (measure_mtu_entry w self) as [Hok Hentry].
  split; [exact Hok |]. rewrite Hentry.
  destruct (measure_mtu_with_timeout (path w (calls self))) as [[found | e] finished];
    cbn [fst snd].
  - destruct (Num.Qltb 10 finished) eqn:Hlate.
    + apply NumFacts.Qltb_lt in Hlate. split; [| by left].
      intros size. split; [done |]. intros [_ Hin]. exfalso.
      by apply (Qlt_not_le _ _ Hlate).
    + apply NumFacts.Qltb_ge in Hlate. split; [| right; by exists found].
      intros size. split; [by intros [= <-] | by intros [[= <-] _]].
  - split; [| by left]. intros size. split; [done | by intros [? _]].
Qed.

(** ** Threads left running *)

Section Threads.

Variable w : World.

Lemma threadless_ret {A} (a : A) : threadless (ret a).
Proof. by intros self. Qed.

Lemma threadless_raise {A} (e : exn) : threadless (@raise A e).
Proof. by intros self. Qed.

Lemma threadless_lift {A} (o : outcome A) : threadless (lift o).
Proof. by intros self. Qed.

Lemma threadless_set_result key value : threadless (set_result key value).
Proof. by intros self. Qed.

Lemma threadless_bind {A B} (m : M A) (k : A → M B) :
  threadless m → (∀ a, threadless (k a)) → threadless (bind m k).
Proof.
  intros Hm Hk self. unfold bind. specialize (Hm self).
  destruct (m self) as [[a | e] self1]; cbn in *; [| done].
  by rewrite Hk.
Qed.

Lemma threadless_try_except {A} (body : M A) (handler : exn → M A) :
  threadless body → (∀ e, threadless (handler e)) →
  threadless (try_except body handler).
Proof.
  intros Hb Hh self. unfold try_except. specialize (Hb self).
  destruct (body self) as [[a | e] self1]; cbn in *; [done |].
  destruct (is_Exception e); [by rewrite Hh | done].
Qed.

Lemma threadless_get_sample_size : threadless get_sample_size.
Proof. by intros self. Qed.

Lemma threadless_call_ping : threadless (call_ping w).
Proof. intros self. unfold call_ping. by destruct (ping w (calls self)). Qed.

Lemma threadless_sample_latencies n latencies :
  threadless (sample_latencies w n latencies).
Proof.
  revert latencies; induction n as [| n IH]; intros latencies; cbn.
  - apply threadless_ret.
  - apply threadless_bind; [apply threadless_call_ping | intros r; apply IH].
Qed.

Lemma threadless_count_replies n received : threadless (count_replies w n received).
Proof.
  revert received; induction n as [| n IH]; intros received; cbn.
  - apply threadless_ret.
  - apply threadless_bind; [apply threadless_call_ping | intros r; apply IH].
Qed.

Lemma threadless_new_speedtest : threadless (new_speedtest w).
Proof. intros self. unfold new_speedtest. by destruct (st_config _). Qed.

Lemma threadless_new_resolver : threadless (new_resolver w).
Proof. intros self. unfold new_resolver. by destruct (resolver_ok _ _). Qed.

Lemma threadless_timed_resolve domain : threadless (timed_resolve w domain).
Proof. intros self. unfold timed_resolve. by destruct (resolve _ _ _). Qed.

Lemma threadless_resolve_each ds times : threadless (resolve_each w ds times).
Proof.
  revert times; induction ds as [| d ds IH]; intros times; cbn.
  - apply threadless_ret.
  - apply threadless_bind; [apply threadless_timed_resolve | intros t; apply IH].
Qed.

Create HintDb threads.
#[local] Hint Resolve threadless_ret threadless_raise threadless_lift
  threadless_set_result threadless_bind threadless_try_except
  threadless_get_sample_size threadless_call_ping threadless_sample_latencies
  threadless_count_replies threadless_new_speedtest threadless_new_resolver
  threadless_timed_resolve threadless_resolve_each : threads.

Lemma threadless_measure_latency : threadless (measure_latency w).
Proof. unfold measure_latency. eauto 10 with threads. Qed.

Lemma threadless_measure_jitter : threadless (measure_jitter w).
Proof. unfold measure_jitter. eauto 10 with threads. Qed.

Lemma threadless_measure_packet_loss : threadless (measure_packet_loss w).
Proof. unfold measure_packet_loss. eauto 10 with threads. Qed.

Lemma threadless_measure_bandwidth : threadless (measure_bandwidth w).
Proof.
  unfold measure_bandwidth, get_best_server, run_transfer. eauto 12 with threads.
Qed.

Lemma threadless_measure_dns_resolution : threadless (measure_dns_resolution w).
Proof. unfold measure_dns_resolution. eauto 10 with threads. Qed.

Lemma threads_have_entry_step key m self :
  stores key m → threadless m ∨ key = "mtu" →
  threads_have_entry self → threads_have_entry (m self).2.
Proof.
  intros Hstores Hkind Hself.
  destruct (stores_ok key m self Hstores) as (self' & Hrun & Hdom & _).
  unfold threads_have_entry. destruct Hkind as [Hthreadless | ->].
  - specialize (Hthreadless self). rewrite Hrun in *. cbn [snd] in *.
    destruct Hself as [Hnone | Hmtu]; [left; congruence | right].
    rewrite Hdom. set_solver.
  - rewrite Hrun. cbn [snd]. right. rewrite Hdom. set_solver.
Qed.

Lemma method_keeps_threads_entry name method self :
  getitem (metric_methods w) name = Ok method →
  threads_have_entry self →
  (method self).1 = Ok tt ∧ threads_have_entry (method self).2.
Proof.
  unfold metric_methods. cbn [getitem].
  repeat match goal with
         | |- context [String.eqb ?a name] =>
             destruct (String.eqb_spec a name) as [<- | _]
         end; try discriminate; intros [= <-] Hself.
  - split; [by destruct (measure_latency_entry w self) |].
    apply (threads_have_entry_step "latency");
      [apply stores_measure_latency | left; apply threadless_measure_latency | done].
  - split; [by destruct (measure_packet_loss_entry w self) |].
    apply (threads_have_entry_step "packet_loss");
      [apply stores_measure_packet_loss
      | left; apply threadless_measure_packet_loss | done].
  - split; [by destruct (stores_measure_bandwidth w self) as (? & ? & -> & _) |].
    apply (threads_have_entry_step "bandwidth");
      [apply stores_measure_bandwidth | left; apply threadless_measure_bandwidth | done].
  - split; [by destruct (measure_jitter_entry w self) |].
    apply (threads_have_entry_step "jitter");
      [apply stores_measure_jitter | left; apply threadless_measure_jitter | done].
  - split; [by destruct (measure_mtu_entry w self) |].
    apply (threads_have_entry_step "mtu");
      [apply stores_measure_mtu | by right | done].
  - split; [by destruct (measure_dns_resolution_entry w self) |].
    apply (threads_have_entry_step "dns_resolution");
      [apply stores_measure_dns_resolution
      | left; apply threadless_measure_dns_resolution | done].
Qed.

Lemma run_requested_threads names : ∀ self,
  threads_have_entry self →
  ∀ self', run_requested w names self = (Ok tt, self') → threads_have_entry self'.
Proof.
  induction names as [| name names IH]; intros self Hself self';
    cbn [run_requested].
  - by intros [= <-].
  - unfold bind, lift.
    destruct (getitem (metric_methods w) name) as [method | e] eqn:Hget;
      [| discriminate].
    destruct (method_keeps_threads_entry name method self Hget Hself) as [Hok Hself1].
    destruct (method self) as [r self1]. cbn in Hok, Hself1. subst r.
    by apply IH.
Qed.

Lemma run_each_threads self self' :
  threads_have_entry self →
  run_each (metric_methods w) self = (Ok tt, self') → threads_have_entry self'.
Proof.
  intros Hself Hrun. apply (run_requested_threads choices self Hself self').
  exact Hrun.
Qed.

Lemma late_write_keeps self :
  threads_have_entry self →
  threads_have_entry (late_write self) ∧
  dom (results (late_write self)) = dom (results self) ∧
  ∀ key, key ≠ "mtu" → results (late_write self) !! key = results self !! key.
Proof.
  intros Hself. unfold late_write.
  destruct (abandoned self) as [| value rest] eqn:Hqueue; [done |].
  destruct Hself as [Hnone | Hmtu]; [congruence |]. cbn.
  split; [right; cbn; rewrite dom_insert_L; set_solver |].
  split; [rewrite dom_insert_L; set_solver |].
  intros key Hkey. by rewrite lookup_insert_ne.
Qed.

Lemma late_writes_keep (k : nat) self :
  threads_have_entry self →
  threads_have_entry (Nat.iter k late_write self) ∧
  dom (results (Nat.iter k late_write self)) = dom (results self) ∧
  ∀ key, key ≠ "mtu" →
         results (Nat.iter k late_write self) !! key = results self !! key.
Proof.
  intros Hself. induction k as [| k (Hinv & Hdom & Hother)]; [done |].
  rewrite Nat.iter_succ.
  destruct (late_write_keeps _ Hinv) as (Hinv' & Hdom' & Hother').
  split; [exact Hinv' |]. split; [by rewrite Hdom', Hdom |].
  intros key Hkey. by rewrite Hother', Hother.
Qed.

End Threads.

(** X14.  However long the threads that a run left behind keep running, and
    whatever they store at their end, they change no entry of the report but
    ["mtu"] and never change its key set. *)
Theorem late_writes_touch_only_mtu
    (w : World) (argv : Args) (tester : NetworkTester) (k : nat) :
  main w argv = Ok tester →
  dom (results (Nat.iter k late_write tester)) = dom (results tester) ∧
  ∀ key, key ≠ "mtu" →
         results (Nat.iter k late_write tester) !! key = results tester !! key.
Proof.
  intros Hmain.
  assert (threads_have_entry tester) as Hinv.
  { unfold main, obind in Hmain.
    destruct (parse_args argv) as [args | e]; [| discriminate].
    assert (threads_have_entry (init (target args) (samples args))) as Hinit
      by (by left).
    destruct (metrics args) as [[| name names] |].
    - destruct (run_each (metric_methods w) _) as [[[] | e] self'] eqn:Hrun;
        [| discriminate].
      injection Hmain as <-. by eapply run_each_threads.
    - destruct (run_requested w (name :: names) _) as [[[] | e] self'] eqn:Hrun;
        [| discriminate].
      injection Hmain as <-. by eapply run_requested_threads.
    - destruct (run_each (metric_methods w) _) as [[[] | e] self'] eqn:Hrun;
        [| discriminate].
      injection Hmain as <-. by eapply run_each_threads. }
  by destruct (late_writes_keep k tester Hinv) as (_ & ? & ?).
Qed.

Lemma late_writes_touch_only_mtu_witness :
  ∃ tester,
    main (with_path late_reply_path)
         {| target := "8.8.8.8"; samples := 0; metrics := Some ["mtu"; "latency"] |}
    = Ok tester ∧
    results tester !! "mtu" = Some None ∧
    results (Nat.iter 1 late_write tester) !! "mtu" = Some (Some (Mtu 1410)) ∧
    results (Nat.iter 1 late_write tester) !! "latency" = results tester !! "latency" ∧
    dom (results (Nat.iter 1 late_write tester)) = dom (results tester).
Proof.
  eexists. split; [reflexivity |].
  split; [vm_compute; reflexivity |]. split; [vm_compute; reflexivity |].
  edestruct (late_writes_touch_only_mtu (with_path late_reply_path)
               {| target := "8.8.8.8"; samples := 0;
                  metrics := Some ["mtu"; "latency"] |} _ 1 eq_refl)
    as [Hdom Hother].
  split; [by apply Hother | exact Hdom].
Defined.

(** ** When a late write lands *)

Section Landing.

Variable w : World.

Lemma measure_bandwidth_entry (self : NetworkTester) :
  results (measure_bandwidth w self).2 !! "bandwidth"
  = Some (Some (let st := speedtest w (calls self) in
                if st_config st && st_best_server st
                then Bandwidth (speed_of (st_download st)) (speed_of (st_upload st))
                else Bandwidth None None)).
Proof.
  unfold measure_bandwidth, try_except, bind, new_speedtest, get_best_server,
    run_transfer, lift, raise, ret, speed_of.
  destruct (speedtest w (calls self)) as [config best down up]; cbn.
  destruct config; cbn; [| by rewrite lookup_insert_eq].
  destruct best; cbn; [| by rewrite lookup_insert_eq].
  destruct down, up; cbn; by rewrite lookup_insert_eq.
Qed.

(** What a method other than [measure_mtu] stores is decided by the sample
    size and by the network from the current call on, not by the report. *)
Lemma entry_is_framed (name : string) (method : M unit) (s1 s2 : NetworkTester) :
  getitem (metric_methods w) name = Ok method →
  name ≠ "mtu" →
  calls s1 = calls s2 → sample_size s1 = sample_size s2 →
  results (method s1).2 !! report_key name = results (method s2).2 !! report_key name.
Proof.
  unfold metric_methods. cbn [getitem].
  repeat match goal with
         | |- context [String.eqb ?a name] =>
             destruct (String.eqb_spec a name) as [<- | _]
         end; try discriminate; intros [= <-] Hname Hcalls Hsize;
    try done; cbn [report_key String.eqb Ascii.eqb Bool.eqb].
  - destruct (measure_latency_entry w s1) as [_ ->].
    destruct (measure_latency_entry w s2) as [_ ->].
    unfold upcoming_pings. by rewrite Hcalls, Hsize.
  - destruct (measure_packet_loss_entry w s1) as [_ ->].
    destruct (measure_packet_loss_entry w s2) as [_ ->].
    unfold upcoming_pings. by rewrite Hcalls, Hsize.
  - rewrite !measure_bandwidth_entry. by rewrite Hcalls.
  - destruct (measure_jitter_entry w s1) as [_ ->].
    destruct (measure_jitter_entry w s2) as [_ ->].
    unfold upcoming_pings. by rewrite Hcalls, Hsize.
  - destruct (measure_dns_resolution_entry w s1) as [_ ->].
    destruct (measure_dns_resolution_entry w s2) as [_ ->].
    by rewrite Hcalls.
Qed.

Lemma method_is_threadless (name : string) (method : M unit) :
  getitem (metric_methods w) name = Ok method →
  name ≠ "mtu" → threadless method ∧ report_key name ≠ "mtu".
Proof.
  unfold metric_methods. cbn [getitem].
  repeat match goal with
         | |- context [String.eqb ?a name] =>
             destruct (String.eqb_spec a name) as [<- | _]
         end; try discriminate; intros [= <-] Hname; try done; (split; [| done]).
  - apply threadless_measure_latency.
  - apply threadless_measure_packet_loss.
  - apply threadless_measure_bandwidth.
  - apply threadless_measure_jitter.
  - apply threadless_measure_dns_resolution.
Qed.

(** A thread that ends before a probe of another metric leaves the report
    that it would leave by ending after it. *)
Lemma late_write_lands_any_time (name : string) (method : M unit)
    (self : NetworkTester) :
  getitem (metric_methods w) name = Ok method →
  name ≠ "mtu" →
  results (method (late_write self)).2 = results (late_write (method self).2).
Proof.
  intros Hget Hname.
  destruct (method_is_threadless name method Hget Hname) as [Hthreadless Hkey].
  assert (name ∈ choices) as Hin.
  { revert Hget. unfold metric_methods, choices. cbn [getitem].
    repeat match goal with
           | |- context [String.eqb ?a name] =>
               destruct (String.eqb_spec a name) as [<- | _]; [intros _; set_solver |]
           end.
    discriminate. }
  destruct (getitem_choices w name Hin) as (method' & Hget' & Hstores).
  assert (method' = method) as -> by congruence.
  pose proof (Hthreadless self) as Hqueue.
  destruct (Hstores self) as (x2 & self2 & Hrun2 & Hres2 & _).
  unfold late_write at 2. rewrite Hqueue.
  destruct (abandoned self) as [| value rest] eqn:Habandoned.
  - unfold late_write. by rewrite Habandoned.
  - pose proof (entry_is_framed name method (late_write self) self Hget Hname) as Hframe.
    destruct (Hstores (late_write self)) as (x1 & self1 & Hrun1 & Hres1 & _).
    rewrite Hrun1, Hrun2 in *. cbn [snd] in *.
    rewrite Hres1, Hres2 in Hframe. rewrite !lookup_insert_eq in Hframe.
    assert (x1 = x2) as ->.
    { unfold late_write in Hframe. rewrite Habandoned in Hframe.
      by injection (Hframe eq_refl eq_refl). }
    rewrite Hres1, Hres2. unfold late_write. rewrite Habandoned. cbn [results].
    by apply insert_insert_ne.
Qed.

End Landing.
